(** * Package handlers of the community package backend

    A shallow embedding of [src/handlers/package_handler.js]: the endpoint
    handlers for listing, searching, inspecting, starring and downloading
    packages.  The handlers are asynchronous JavaScript functions that talk
    to a number of collaborator modules ([data], [users], [collection],
    [query], [common], [logger], [error], [utils], [config]).  Here

    - JavaScript arrays live in a store indexed by references, so that two
      variables holding the same array see each other's in-place updates;
    - every call to a collaborator is recorded in a trace, in program order;
    - the state of the collaborators is an abstract world [W], threaded
      through the calls.

    Numbers are modelled as [Z], strings as [string], objects used as
    dictionaries as [gmap]. *)

From Stdlib Require Import ZArith QArith Qround DecimalString.
From stdpp Require Import gmap strings list fin_maps pretty sorting.

Local Open Scope Z_scope.

(** ** Data model *)

(** One entry of [pack.versions]; the handlers only read [tarball_url]
    (the migration comment in [GETPackagesVersionTarball] states that every
    version carries that key). *)
Record Version := mkVersion {
  tarball_url : string;
}.

(** The fields of a package object the handlers touch. *)
Record Package := mkPackage {
  name : string;
  downloads : Z;
  star_gazers : list string;
  versions : gmap string Version;
}.

Record User := mkUser {
  user_name : string;
}.

(** Server status objects: [{ ok: true, content }] or
    [{ ok: false, short, content }]. *)
Inductive Result (A : Type) : Type :=
| Ok (content : A)
| Fail (short : string) (content : string).
Arguments Ok {A} content.
Arguments Fail {A} short content.

Definition ok {A} (r : Result A) : bool :=
  match r with Ok _ => true | Fail _ _ => false end.

(** What [query.engine] hands back: the version string, or [false]. *)
Inductive EngineVal :=
| EFalse
| EStr (s : string).

(** JavaScript truthiness of such a value: [false] and the empty string are
    falsy, every other string is truthy. *)
Definition truthy (v : EngineVal) : bool :=
  match v with
  | EFalse => false
  | EStr s => negb (String.eqb s EmptyString)
  end.

(** ** JavaScript primitives *)

Section JSArray.
Context {A : Type}.

(** [Array.prototype.splice(start, deleteCount)] without inserted items,
    on the content of the array: a negative [start] counts from the end,
    [start] is clamped to the length and [deleteCount] to what is left.
    The result is the content that stays in the array. *)
Definition splice (start deleteCount : Z) (l : list A) : list A :=
  let len := Z.of_nat (length l) in
  let actualStart :=
    if start <? 0 then Z.max (len + start) 0 else Z.min start len in
  let actualDeleteCount := Z.min (Z.max deleteCount 0) (len - actualStart) in
  take (Z.to_nat actualStart) l
    ++ drop (Z.to_nat (actualStart + actualDeleteCount)) l.

End JSArray.

(** [Math.ceil(a / b)]: the quotient is taken in the rationals and rounded
    up.  Array lengths stay below 2^32, where the double-precision quotient
    has the same ceiling as the exact one.  The handlers are studied for a
    positive divisor only (JavaScript answers a zero divisor with [Infinity]
    or [NaN], the rationals here with 0). *)
Definition Math_ceil_div (a b : Z) : Z :=
  Qceiling (inject_Z a / inject_Z b)%Q.

(** The page count of both listing handlers:
    [Math.ceil(packages.length / paginated_amount)]. *)
Definition total_pages (len paginated_amount : Z) : Z :=
  Math_ceil_div len paginated_amount.

(** ** Requests, responses and the trace of collaborator calls *)

(** An Express request, reduced to what the handlers read from it: the
    query string, the [Authorization] header and the two route
    parameters. *)
Record Request := mkRequest {
  req_query : gmap string string;
  req_authorization : option string;
  req_params_packageName : string;
  req_params_versionName : string;
}.

(** References to JavaScript arrays. *)
Definition Ref := positive.

(** Bodies passed to [res.json]. *)
Inductive Json :=
| JPackages (l : list Package)
| JPackage (p : Package)
| JOkTrue.

(** One constructor per collaborator function the handlers call, with the
    arguments of the call. *)
Inductive Event :=
| DataGetAllPackages
| DataGetFeatured
| DataGetPackageByName (pname : string)
| DataSetPackageByName (pname : string) (content : Package)
| DataStarPackageByName (pname uname : string)
| DataUnStarPackageByName (pname uname : string)
| UsersVerifyAuth (auth : option string)
| UsersAddUserStar (pname uname : string)
| CollectionDeepCopy
| CollectionSort (r : Ref) (method : string)
| CollectionDirection (r : Ref) (method : string)
| CollectionSearchWithinPackages (q : string) (r : Ref)
| CollectionPOSPrune (r : Ref)
| CollectionPOFPrune (p : Package)
| CollectionEngineFilter (p : Package) (engine : string)
| ConsoleLog (msg : string)
| ResAppend (field value : string)
| ResStatusJson (code : Z) (body : Json)
| ResRedirect (url : string)
| CommonHandleError (short content : string)
| CommonNotFound
| CommonServerError (content : string)
| CommonAuthFail (short content : string)
| ErrorServerErrorJSON
| LoggerHTTPLog
| LoggerWarningLog (content : string)
| LoggerErrorLog (content : string).

(** ** The handler monad *)

Section Monad.
Context {W : Type}.

(** The array store, the state of the collaborators, and the calls made
    so far (oldest first). *)
Record St := mkSt {
  heap : gmap Ref (list Package);
  world : W;
  trace : list Event;
}.

Definition M (A : Type) : Type := St -> A * St.

Definition ret {A} (a : A) : M A := fun st => (a, st).

Definition bind {A B} (m : M A) (k : A -> M B) : M B :=
  fun st => let '(a, st') := m st in k a st'.

Definition emit (e : Event) : M unit :=
  fun st => (tt, mkSt (heap st) (world st) (trace st ++ [e])).

(** A call into a stateful collaborator: recorded, then answered by the
    collaborator from its current state. *)
Definition call {A} (e : Event) (f : W -> A * W) : M A :=
  fun st =>
    let '(a, w) := f (world st) in
    (a, mkSt (heap st) w (trace st ++ [e])).

Definition when_ (b : bool) (m : M unit) : M unit :=
  if b then m else ret tt.

(** *** Arrays in the store *)

Definition array_content (r : Ref) : M (list Package) :=
  fun st => (default [] (heap st !! r), st).

Definition array_length (r : Ref) : M Z :=
  fun st => (Z.of_nat (length (default [] (heap st !! r))), st).

Definition array_update (f : list Package -> list Package) (r : Ref) : M unit :=
  fun st => (tt, mkSt (alter f r (heap st)) (world st) (trace st)).

Definition array_alloc (l : list Package) : M Ref :=
  fun st =>
    let r := fresh (dom (heap st)) in
    (r, mkSt (<[r := l]> (heap st)) (world st) (trace st)).

(** [packages.splice(start, deleteCount)], in place. *)
Definition array_splice (r : Ref) (start deleteCount : Z) : M unit :=
  array_update (splice start deleteCount) r.

End Monad.
Arguments St W : clear implicits.
Arguments M W A : clear implicits.

Declare Scope handler_scope.
Delimit Scope handler_scope with handler.
Notation "x <- m ;; k" := (bind m (fun x => k))
  (at level 100, m at next level, right associativity) : handler_scope.
Notation "m ;;; k" := (bind m (fun _ => k))
  (at level 100, right associativity) : handler_scope.

(** ** Collaborators *)

(** The modules [package_handler.js] requires.  [data] and [users] answer
    from their own state; [query] reads the request; the functions of
    [collection] are given by what they compute on the content of their
    argument; [config] supplies two constants.  [decodeURIComponent] gives
    the decoded package name: the JavaScript function throws on a malformed
    percent escape, so a handler that decodes is modelled for the requests
    whose package name decodes. *)
Class Collaborators (W : Type) := {
  data_GetAllPackages : W -> Result Ref * W;
  data_GetFeatured : W -> Result Ref * W;
  data_GetPackageByName : string -> W -> Result Package * W;
  data_SetPackageByName : string -> Package -> W -> Result unit * W;
  data_StarPackageByName : string -> string -> W -> Result Package * W;
  data_UnStarPackageByName : string -> string -> W -> Result Package * W;
  users_VerifyAuth : option string -> W -> Result User * W;
  users_AddUserStar : string -> string -> W -> Result unit * W;
  query_page : Request -> Z;
  query_sort : Request -> option string -> string;
  query_dir : Request -> string;
  query_query : Request -> string;
  valid_semver : string -> bool;
  Sort_order : string -> list Package -> list Package;
  Direction_order : string -> list Package -> list Package;
  SearchWithinPackages_result : string -> list Package -> list Package;
  POSPrune_view : list Package -> list Package;
  POFPrune_view : Package -> Package;
  EngineFilter_view : Package -> string -> Package;
  decodeURIComponent : string -> string;
  server_url : string;
  paginated_amount : Z;
}.

(** ** The handlers *)

Definition dquote : string := String (Ascii.ascii_of_nat 34) EmptyString.

(** The message [POSTPackagesStar] logs when the rollback of a star fails
    as well. *)
Definition star_failure_message : string :=
  "Failed to unstar package after failing to add star to user. Unstar error, followed by User Star error to follow...".

(** The [params] object of [GETPackages]. *)
Record Params := mkParams {
  p_page : Z;
  p_sort : string;
  p_direction : string;
}.

(** The [params] object of [GETPackagesSearch]. *)
Record SearchParams := mkSearchParams {
  s_sort : string;
  s_page : Z;
  s_direction : string;
  s_query : string;
}.

(** The three page numbers interpolated into a [Link] header. *)
Record LinkPages := mkLinkPages {
  self_page : Z;
  last_page : Z;
  next_page : Z;
}.

(** [params.page++]: the value of the expression is the page before the
    increment; the incremented page is stored back into [params]. *)
Definition page_post_increment (ps : Params) : Z * Params :=
  (p_page ps, mkParams (p_page ps + 1) (p_sort ps) (p_direction ps)).

Definition search_page_post_increment (ps : SearchParams) : Z * SearchParams :=
  (s_page ps,
   mkSearchParams (s_sort ps) (s_page ps + 1) (s_direction ps) (s_query ps)).

(** The page expressions of the template literal of [GETPackages], in the
    order the template evaluates them: [params.page], [total_pages],
    [params.page++]. *)
Definition link_pages (total : Z) (ps : Params) : LinkPages * Params :=
  let self := p_page ps in
  let last := total in
  let '(next, ps') := page_post_increment ps in
  (mkLinkPages self last next, ps').

Definition search_link_pages (total : Z) (ps : SearchParams)
  : LinkPages * SearchParams :=
  let self := s_page ps in
  let last := total in
  let '(next, ps') := search_page_post_increment ps in
  (mkLinkPages self last next, ps').

Section Handlers.
Context {W : Type} {C : Collaborators W}.

Local Open Scope handler_scope.

(** *** [query] and [utils] *)

(** Modelled from the spec: [query.engine] ([src/query.js] is not part of
    the sources).  A requested version that is absent or is not a semver
    gives [false]; a semver is handed back unchanged, as the comments at
    the three call sites say. *)
Definition query_engine (raw : option string) : EngineVal :=
  match raw with
  | None => EFalse
  | Some v => if valid_semver v then EStr v else EFalse
  end.

Definition call_VerifyAuth (auth : option string) : M W (Result User) :=
  call (UsersVerifyAuth auth) (users_VerifyAuth auth).

Definition common_HandleError {A} (r : Result A) : M W unit :=
  match r with
  | Ok _ => emit (CommonHandleError EmptyString EmptyString)
  | Fail short content => emit (CommonHandleError short content)
  end.

Definition common_AuthFail {A} (r : Result A) : M W unit :=
  match r with
  | Ok _ => emit (CommonAuthFail EmptyString EmptyString)
  | Fail short content => emit (CommonAuthFail short content)
  end.

(** Modelled from the spec: [utils.LocalUserLoggedIn] ([src/utils.js] is
    not part of the sources), after the inline form of the same check in
    [DELETEPackageVersion]: verify the credentials, answer with the
    authentication failure or run the callback on the user. *)
Definition utils_LocalUserLoggedIn (auth : option string)
    (onLogin : Result User -> M W unit) : M W unit :=
  user <- call_VerifyAuth auth ;;
  if ok user then onLogin user else common_AuthFail user.

(** *** [collection] *)

(** Modelled from the spec: [collection.DeepCopy], [Sort], [Direction],
    [SearchWithinPackages] and [POSPrune] ([src/collection.js] is not
    part of the sources).  The copy is a new array with the same content;
    sorting and direction form the array-mutation chain of the design
    notes: they reorder the array they are given and return it; searching
    and pruning build the array of their results. *)
Definition collection_DeepCopy (r : Ref) : M W Ref :=
  emit CollectionDeepCopy ;;;
  l <- array_content r ;;
  array_alloc l.

(** [DeepCopy] of a status object: objects are values here, so the copy
    is the object itself. *)
Definition collection_DeepCopy_object {A} (o : A) : M W A :=
  emit CollectionDeepCopy ;;;
  ret o.

Definition collection_Sort (r : Ref) (method : string) : M W Ref :=
  emit (CollectionSort r method) ;;;
  array_update (Sort_order method) r ;;;
  ret r.

Definition collection_Direction (r : Ref) (method : string) : M W Ref :=
  emit (CollectionDirection r method) ;;;
  array_update (Direction_order method) r ;;;
  ret r.

Definition collection_SearchWithinPackages (q : string) (r : Ref) : M W Ref :=
  emit (CollectionSearchWithinPackages q r) ;;;
  l <- array_content r ;;
  array_alloc (SearchWithinPackages_result q l).

Definition collection_POSPrune (r : Ref) : M W Ref :=
  emit (CollectionPOSPrune r) ;;;
  l <- array_content r ;;
  array_alloc (POSPrune_view l).

Definition collection_POFPrune (p : Package) : M W Package :=
  emit (CollectionPOFPrune p) ;;;
  ret (POFPrune_view p).

Definition collection_EngineFilter (p : Package) (engine : string)
  : M W Package :=
  emit (CollectionEngineFilter p engine) ;;;
  ret (EngineFilter_view p engine).

(** *** Pagination, shared by [GETPackages] and [GETPackagesSearch] *)

(** Lines 60-70 and 251-264: the page count is taken first, then the two
    conditional [splice] calls cut the array in place. *)
Definition prune_to_page (packages : Ref) (page : Z) : M W Z :=
  len <- array_length packages ;;
  let total := total_pages len paginated_amount in
  when_ (negb (page =? 1))
    (array_splice packages 0 (page * paginated_amount)) ;;;
  when_ (negb (page =? total))
    (len' <- array_length packages ;;
     array_splice packages (page * paginated_amount + paginated_amount) len') ;;;
  ret total.

Definition link_query (page : Z) (srt dir : string) : string :=
  "page=" +:+ pretty page +:+ "&sort=" +:+ srt +:+ "&order=" +:+ dir.

Definition rel (r : string) : string :=
  ">; rel=" +:+ dquote +:+ r +:+ dquote.

Definition format_Link (lp : LinkPages) (srt dir : string) : string :=
  "<" +:+ server_url +:+ "/api/packages?"
      +:+ link_query (self_page lp) srt dir +:+ rel "self"
  +:+ ", <" +:+ server_url +:+ "/api/packages?"
      +:+ link_query (last_page lp) srt dir +:+ rel "last"
  +:+ ", <" +:+ server_url +:+ "/api/packages?"
      +:+ link_query (next_page lp) srt dir +:+ rel "next".

Definition format_search_Link (lp : LinkPages) (q srt dir : string) : string :=
  "<" +:+ server_url +:+ "/api/packages/search?q=" +:+ q +:+ "&"
      +:+ link_query (self_page lp) srt dir +:+ rel "self"
  +:+ ", <" +:+ server_url +:+ "/api/packages?q=" +:+ q +:+ "&"
      +:+ link_query (last_page lp) srt dir +:+ rel "last"
  +:+ ", <" +:+ server_url +:+ "/api/packages/search?q=" +:+ q +:+ "&"
      +:+ link_query (next_page lp) srt dir +:+ rel "next".

(** *** GET /api/packages *)
Definition GETPackages (req : Request) : M W unit :=
  let params := mkParams (query_page req) (query_sort req None) (query_dir req) in
  all_packages <- call DataGetAllPackages data_GetAllPackages ;;
  emit (ConsoleLog "retreived all packages") ;;;
  match all_packages with
  | Fail _ _ => common_HandleError all_packages
  | Ok content =>
    packages <- collection_DeepCopy content ;;
    packages <- collection_Sort content (p_sort params) ;;
    packages <- collection_Direction packages (p_direction params) ;;
    total <- prune_to_page packages (p_page params) ;;
    packages <- collection_POSPrune packages ;;
    let '(lp, params) := link_pages total params in
    emit (ResAppend "Link"
            (format_Link lp (p_sort params) (p_direction params))) ;;;
    body <- array_content packages ;;
    emit (ResStatusJson 200 (JPackages body)) ;;;
    emit LoggerHTTPLog
  end.

(** *** GET /api/packages/featured *)
Definition GETPackagesFeatured (req : Request) : M W unit :=
  col <- call DataGetFeatured data_GetFeatured ;;
  match col with
  | Fail _ _ => common_HandleError col
  | Ok content =>
    newCol <- collection_DeepCopy content ;;
    newCol <- collection_POSPrune newCol ;;
    body <- array_content newCol ;;
    emit (ResStatusJson 200 (JPackages body))
  end.

(** *** GET /api/packages/search *)
Definition GETPackagesSearch (req : Request) : M W unit :=
  let params :=
    mkSearchParams (query_sort req (Some "relevance"%string)) (query_page req)
                   (query_dir req) (query_query req) in
  all_packages <- call DataGetAllPackages data_GetAllPackages ;;
  match all_packages with
  | Fail _ _ => common_HandleError all_packages
  | Ok content =>
    packages <- collection_DeepCopy content ;;
    packages <- collection_SearchWithinPackages (s_query params) packages ;;
    packages <- collection_Sort packages (s_sort params) ;;
    packages <- collection_Direction packages (s_direction params) ;;
    total <- prune_to_page packages (s_page params) ;;
    packages <- collection_POSPrune packages ;;
    let '(lp, params) := search_link_pages total params in
    emit (ResAppend "Link"
            (format_search_Link lp (s_query params) (s_sort params)
                                (s_direction params))) ;;;
    body <- array_content packages ;;
    emit (ResStatusJson 200 (JPackages body)) ;;;
    emit LoggerHTTPLog
  end.

(** *** GET /api/packages/:packageName *)
Definition GETPackagesDetails (req : Request) : M W unit :=
  let engine := query_engine (req_query req !! "engine"%string) in
  let pname := decodeURIComponent (req_params_packageName req) in
  pack <- call (DataGetPackageByName pname) (data_GetPackageByName pname) ;;
  match pack with
  | Fail _ _ => common_HandleError pack
  | Ok content =>
    content <- collection_DeepCopy_object content ;;
    pack <- collection_POFPrune content ;;
    pack <- (if truthy engine
             then match engine with
                  | EStr v => collection_EngineFilter pack v
                  | EFalse => ret pack
                  end
             else ret pack) ;;
    emit (ResStatusJson 200 (JPackage pack)) ;;;
    emit LoggerHTTPLog
  end.

(** *** POST /api/packages/:packageName/star *)
Definition POSTPackagesStar (req : Request) : M W unit :=
  let auth := req_authorization req in
  let pname := decodeURIComponent (req_params_packageName req) in
  user <- call_VerifyAuth auth ;;
  match user with
  | Ok u =>
    pack <- call (DataStarPackageByName pname (user_name u))
                 (data_StarPackageByName pname (user_name u)) ;;
    match pack with
    | Ok starred =>
      star <- call (UsersAddUserStar pname (user_name u))
                   (users_AddUserStar pname (user_name u)) ;;
      match star with
      | Ok _ =>
        emit (ResStatusJson 200 (JPackage starred)) ;;;
        emit LoggerHTTPLog
      | Fail _ star_content =>
        unstar <- call (DataUnStarPackageByName pname (user_name u))
                       (data_UnStarPackageByName pname (user_name u)) ;;
        match unstar with
        | Ok _ => emit (CommonServerError star_content)
        | Fail _ unstar_content =>
          emit ErrorServerErrorJSON ;;;
          emit LoggerHTTPLog ;;;
          emit (LoggerErrorLog star_failure_message) ;;;
          emit (LoggerErrorLog unstar_content) ;;;
          emit (LoggerErrorLog star_content)
        end
      end
    | Fail _ pack_content => emit (CommonServerError pack_content)
    end
  | Fail _ _ => common_AuthFail user
  end.

(** *** GET /api/packages/:packageName/versions/:versionName/tarball *)
Definition GETPackagesVersionTarball (req : Request) : M W unit :=
  let pname := decodeURIComponent (req_params_packageName req) in
  let versionName := query_engine (Some (req_params_versionName req)) in
  if negb (truthy versionName) then emit CommonNotFound
  else
    pack <- call (DataGetPackageByName pname) (data_GetPackageByName pname) ;;
    match pack, versionName with
    | Fail _ _, _ => emit CommonNotFound
    | Ok _, EFalse => emit CommonNotFound
    | Ok content, EStr v =>
      match versions content !! v with
      | None => emit CommonNotFound
      | Some _ =>
        let content :=
          mkPackage (name content) (downloads content + 1)
                    (star_gazers content) (versions content) in
        save <- call (DataSetPackageByName pname content)
                     (data_SetPackageByName pname content) ;;
        match save with
        | Ok _ => ret tt
        | Fail _ save_content => emit (LoggerWarningLog save_content)
        end ;;;
        match versions content !! v with
        | Some ver => emit (ResRedirect (tarball_url ver))
        | None => ret tt
        end ;;;
        emit LoggerHTTPLog
      end
    end.

(** *** POST /api/packages/:packageName/versions/:versionName/events/uninstall *)
Definition POSTPackagesEventUninstall_onLogin (pname : string)
    (user : Result User) : M W unit :=
  pack <- call (DataGetPackageByName pname) (data_GetPackageByName pname) ;;
  match pack with
  | Fail _ _ => common_HandleError pack
  | Ok content =>
    let content :=
      mkPackage (name content) (downloads content - 1)
                (star_gazers content) (versions content) in
    write <- call (DataSetPackageByName pname content)
                  (data_SetPackageByName pname content) ;;
    match write with
    | Fail _ _ => common_HandleError write
    | Ok _ =>
      emit (ResStatusJson 201 JOkTrue) ;;;
      emit LoggerHTTPLog
    end
  end.

Definition POSTPackagesEventUninstall (req : Request) : M W unit :=
  let auth := req_authorization req in
  let pname := decodeURIComponent (req_params_packageName req) in
  utils_LocalUserLoggedIn auth (POSTPackagesEventUninstall_onLogin pname).

(** Running a handler from a given store and collaborator state, with an
    empty trace. *)
Definition run (h : M W unit) (hp : gmap Ref (list Package)) (w : W) : St W :=
  snd (h (mkSt hp w [])).

End Handlers.

(** ** Observations and specification-side definitions *)

(** What the two conditional [splice] calls of the listing handlers leave
    of an array with content [l]: the effect of [prune_to_page] on the
    content alone. *)
Definition kept_on_page {A} (page p : Z) (l : list A) : list A :=
  let total := total_pages (Z.of_nat (length l)) p in
  let l1 := if negb (page =? 1) then splice 0 (page * p) l else l in
  if negb (page =? total)
  then splice (page * p + p) (Z.of_nat (length l1)) l1
  else l1.

(** The slice the specification asks for: the index range
    [(page-1)*p, page*p) of the sorted sequence, clamped to its length. *)
Definition spec_slice {A} (page p : Z) (l : list A) : list A :=
  take (Z.to_nat p) (drop (Z.to_nat ((page - 1) * p)) l).

(** The page count the specification asks for. *)
Definition spec_total_pages (total_count p : Z) : Z :=
  Z.max 1 (Math_ceil_div total_count p).

(** The arrays sent with [res.json]. *)
Definition response_bodies (t : list Event) : list (list Package) :=
  omap (fun e => match e with
                 | ResStatusJson _ (JPackages l) => Some l
                 | _ => None
                 end) t.

(** The values of the [Link] header. *)
Definition link_headers (t : list Event) : list string :=
  omap (fun e => match e with
                 | ResAppend _ v => Some v
                 | _ => None
                 end) t.

Definition is_EngineFilter (e : Event) : bool :=
  match e with CollectionEngineFilter _ _ => true | _ => false end.

(** The packages handed to [data.SetPackageByName]. *)
Definition written_packages (t : list Event) : list Package :=
  omap (fun e => match e with
                 | DataSetPackageByName _ c => Some c
                 | _ => None
                 end) t.

Definition is_ok_response (e : Event) : bool :=
  match e with ResStatusJson 200 _ => true | _ => false end.

(** A computation that adds to the trace only events satisfying [P]. *)
Definition quiet {W : Type} (P : Event -> Prop) {A} (m : M W A) : Prop :=
  forall st, Forall P (trace st) -> Forall P (trace (m st).2).

Definition not_EngineFilter (e : Event) : Prop := is_EngineFilter e = false.

Definition not_SetPackage (e : Event) : Prop :=
  match e with DataSetPackageByName _ _ => False | _ => True end.

(** ** An in-memory set of collaborators

    A small concrete environment to run the handlers in: packages are kept
    in a map by name, one token is accepted as credentials, and three
    switches make a write, a user-star or an unstar fail. *)
Module Mem.

Record World := mkWorld {
  packages : gmap string Package;
  catalog : Result Ref;
  featured : Result Ref;
  token : string;
  account : User;
  write_ok : bool;
  user_star_ok : bool;
  unstar_ok : bool;
}.

Definition with_packages (m : gmap string Package) (w : World) : World :=
  mkWorld m (catalog w) (featured w) (token w) (account w)
          (write_ok w) (user_star_ok w) (unstar_ok w).

Definition with_star_gazers (g : list string) (p : Package) : Package :=
  mkPackage (name p) (downloads p) g (versions p).

Definition GetPackageByName (n : string) (w : World) : Result Package * World :=
  match packages w !! n with
  | Some p => (Ok p, w)
  | None => (Fail "Not Found" "package not found", w)
  end.

Definition SetPackageByName (n : string) (p : Package) (w : World)
  : Result unit * World :=
  if write_ok w then (Ok tt, with_packages (<[n := p]> (packages w)) w)
  else (Fail "Server Error" "write failed", w).

Definition StarPackageByName (n u : string) (w : World)
  : Result Package * World :=
  match packages w !! n with
  | Some p =>
    let p' := with_star_gazers (u :: star_gazers p) p in
    (Ok p', with_packages (<[n := p']> (packages w)) w)
  | None => (Fail "Not Found" "package not found", w)
  end.

Definition UnStarPackageByName (n u : string) (w : World)
  : Result Package * World :=
  match packages w !! n with
  | Some p =>
    if unstar_ok w then
      let p' :=
        with_star_gazers
          (filter (fun g => negb (String.eqb g u)) (star_gazers p)) p in
      (Ok p', with_packages (<[n := p']> (packages w)) w)
    else (Fail "Server Error" "unstar failed", w)
  | None => (Fail "Not Found" "package not found", w)
  end.

Definition VerifyAuth (auth : option string) (w : World) : Result User * World :=
  match auth with
  | Some t =>
    if String.eqb t (token w) then (Ok (account w), w)
    else (Fail "Bad Auth" "invalid token", w)
  | None => (Fail "Bad Auth" "missing token", w)
  end.

Definition AddUserStar (n u : string) (w : World) : Result unit * World :=
  if user_star_ok w then (Ok tt, w)
  else (Fail "Server Error" "user star failed", w).

Definition page (req : Request) : Z :=
  match req_query req !! "page"%string with
  | Some s =>
    match NilZero.uint_of_string s with
    | Some u => Z.of_uint u
    | None => 1
    end
  | None => 1
  end.

Definition sort_param (req : Request) (def : option string) : string :=
  default (default "downloads"%string def) (req_query req !! "sort"%string).

Definition dir (req : Request) : string :=
  default "desc"%string (req_query req !! "order"%string).

Definition query (req : Request) : string :=
  default EmptyString (req_query req !! "q"%string).

Definition is_digit (c : Ascii.ascii) : bool :=
  ((48 <=? Ascii.nat_of_ascii c) && (Ascii.nat_of_ascii c <=? 57))%nat.

(** Three dot-separated groups of digits. *)
Fixpoint semver_from (s : string) (dots : nat) (digit_seen : bool) : bool :=
  match s with
  | EmptyString => digit_seen && (dots =? 2)%nat
  | String c s' =>
    if is_digit c then semver_from s' dots true
    else if Ascii.eqb c (Ascii.ascii_of_nat 46)
         then digit_seen && semver_from s' (S dots) false
         else false
  end.

Definition semver (s : string) : bool := semver_from s 0 false.

Definition by_downloads (a b : Package) : Prop := downloads b <= downloads a.

#[global] Instance by_downloads_dec a b : Decision (by_downloads a b) :=
  Z_le_dec (downloads b) (downloads a).

Definition Sort (method : string) (l : list Package) : list Package :=
  if String.eqb method "downloads" then merge_sort by_downloads l else l.

Definition Direction (method : string) (l : list Package) : list Package :=
  if String.eqb method "asc" then reverse l else l.

#[global] Instance collaborators : Collaborators World := {|
  data_GetAllPackages := fun w => (catalog w, w);
  data_GetFeatured := fun w => (featured w, w);
  data_GetPackageByName := GetPackageByName;
  data_SetPackageByName := SetPackageByName;
  data_StarPackageByName := StarPackageByName;
  data_UnStarPackageByName := UnStarPackageByName;
  users_VerifyAuth := VerifyAuth;
  users_AddUserStar := AddUserStar;
  query_page := page;
  query_sort := sort_param;
  query_dir := dir;
  query_query := query;
  valid_semver := semver;
  Sort_order := Sort;
  Direction_order := Direction;
  SearchWithinPackages_result := fun _ l => l;
  POSPrune_view := fun l => l;
  POFPrune_view := fun p => p;
  EngineFilter_view := fun p _ => p;
  decodeURIComponent := fun s => s;
  server_url := "http://localhost:8080";
  paginated_amount := 3;
|}.

(** Every stored download counter is non-negative. *)
Definition downloads_nonneg (w : World) : Prop :=
  forall n p, packages w !! n = Some p -> 0 <= downloads p.

(** *** Sample data *)

Definition pkg (n : string) (d : Z) : Package :=
  mkPackage n d [] {[ "1.0.0"%string := mkVersion ("https://tarballs/" +:+ n) ]}.

Definition seven : list Package :=
  [pkg "c" 50; pkg "a" 70; pkg "f" 20; pkg "b" 60; pkg "g" 10; pkg "d" 40;
   pkg "e" 30].

Definition ten : list Package :=
  seven ++ [pkg "h" 9; pkg "i" 8; pkg "j" 7].

Definition seven_sorted : list Package :=
  [pkg "a" 70; pkg "b" 60; pkg "c" 50; pkg "d" 40; pkg "e" 30; pkg "f" 20;
   pkg "g" 10].

Definition ten_sorted : list Package :=
  seven_sorted ++ [pkg "h" 9; pkg "i" 8; pkg "j" 7].

Definition world_of (m : gmap string Package) (ok_flags : bool) : World :=
  mkWorld m (Ok 1%positive) (Ok 1%positive) "secret" (mkUser "alice")
          ok_flags ok_flags ok_flags.

Definition listing_request (pg : string) : Request :=
  mkRequest {[ "page"%string := pg; "sort"%string := "downloads"%string;
               "order"%string := "desc"%string ]}
            None EmptyString EmptyString.

Definition package_request (auth : option string) (n v : string) : Request :=
  mkRequest ∅ auth n v.

Definition details_request (n engine : string) : Request :=
  mkRequest {[ "engine"%string := engine ]} None n EmptyString.

(** A store with the single package [a], and the three switches. *)
Definition world_a (d : Z) (write user_star unstar : bool) : World :=
  mkWorld {[ "a"%string := pkg "a" d ]} (Ok 1%positive) (Ok 1%positive)
          "secret" (mkUser "alice") write user_star unstar.

(** The world left by a handler run on the empty array store. *)
Definition world_after (h : M World unit) (w : World) : World :=
  world (run h ∅ w).

(** Responses and cache of a listing or search request for page [pg] when
    the cached catalog is the array [l] at reference 1. *)
Definition listing_run (l : list Package) (pg : string) : St World :=
  run (GETPackages (listing_request pg)) {[ 1%positive := l ]} (world_of ∅ true).

Definition search_run (l : list Package) (pg : string) : St World :=
  run (GETPackagesSearch (listing_request pg)) {[ 1%positive := l ]}
      (world_of ∅ true).

Definition listing_bodies (l : list Package) (pg : string) : list (list Package) :=
  response_bodies (trace (listing_run l pg)).

Definition search_bodies (l : list Package) (pg : string) : list (list Package) :=
  response_bodies (trace (search_run l pg)).

Definition listing_links (l : list Package) (pg : string) : list string :=
  link_headers (trace (listing_run l pg)).

Definition search_links (l : list Package) (pg : string) : list string :=
  link_headers (trace (search_run l pg)).

Definition cache_after_listing (l : list Package) (pg : string)
  : option (list Package) :=
  heap (listing_run l pg) !! 1%positive.

Definition cache_after_search (l : list Package) (pg : string)
  : option (list Package) :=
  heap (search_run l pg) !! 1%positive.

End Mem.

(** ** Responses and sorted sequences *)

(** Events that answer the request: [res.json] and [res.redirect], and the
    helpers of [common] and [error], each of which sends a response. *)
Definition is_response (e : Event) : bool :=
  match e with
  | ResStatusJson _ _ | ResRedirect _ | CommonHandleError _ _ | CommonNotFound
  | CommonServerError _ | CommonAuthFail _ _ | ErrorServerErrorJSON => true
  | _ => false
  end.

Definition count_responses (t : list Event) : nat :=
  length (filter (fun e => is_response e = true) t).

(** A computation that sends exactly [n] responses. *)
Definition responds {W : Type} {A} (n : nat) (m : M W A) : Prop :=
  forall st,
    count_responses (trace (m st).2) = (count_responses (trace st) + n)%nat.

Section ListingOrder.
Context {W : Type} {C : Collaborators W}.
Implicit Types (req : Request).

(** The sorted sequence the two listing handlers cut their page from. *)
Definition listing_sorted req (l : list Package) : list Package :=
  Direction_order (query_dir req) (Sort_order (query_sort req None) l).

Definition search_sorted req (l : list Package) : list Package :=
  Direction_order (query_dir req)
    (Sort_order (query_sort req (Some "relevance"%string))
       (SearchWithinPackages_result (query_query req) l)).

End ListingOrder.

(** ** The publishing and deleting handlers *)

(** [s.split(sep)] for a one-character separator: the pieces between the
    occurrences of [sep], in order; a string without [sep] is its only
    piece. *)
Fixpoint split_on (sep : Ascii.ascii) (s : string) : list string :=
  match s with
  | EmptyString => [EmptyString]
  | String c s' =>
    if Ascii.eqb c sep then EmptyString :: split_on sep s'
    else match split_on sep s' with
         | piece :: pieces => String c piece :: pieces
         | [] => [String c EmptyString]
         end
  end.

Definition slash : Ascii.ascii := Ascii.ascii_of_nat 47.

(** [repository.split("/")[1]]: the second piece, [undefined] when there
    is no slash. *)
Definition repo_name (repository : string) : option string :=
  split_on slash repository !! 1%nat.

(** A version object after [GETPackagesVersion] has set its [dist]. *)
Record VersionView := mkVersionView {
  view_tarball_url : string;
  view_dist_tarball : string;
}.

Inductive HandlerEvent :=
| Core (e : Event)
| GitOwnership (u : User) (repo : string)
| GitCreatePackage (repo : string)
| DataNewPackage (p : Package)
| DataGetPackagePointerByName (pname : option string)
| DataRemovePackageByName (pname : string)
| UsersRemoveUserStar (pname uname : string)
| CommonBadRepoJSON
| ErrorPublishPackageExists
| CommonNotSupported
| CommonHandleErrorOfWrite
| ResStatusJsonMessage (code : Z) (message : string)
| ResStatusJsonStargazers (code : Z) (gazers : list string)
| ResStatusJsonVersion (code : Z) (v : VersionView)
| ResStatusSend (code : Z).

Section HandlerMonad.
Context {W : Type}.

Record Run := mkRun {
  run_world : W;
  run_trace : list HandlerEvent;
}.

Definition H (A : Type) : Type := Run -> A * Run.

Definition hret {A} (a : A) : H A := fun st => (a, st).

Definition hbind {A B} (m : H A) (k : A -> H B) : H B :=
  fun st => let '(a, st') := m st in k a st'.

Definition hemit (e : HandlerEvent) : H unit :=
  fun st => (tt, mkRun (run_world st) (run_trace st ++ [e])).

Definition hcall {A} (e : HandlerEvent) (f : W -> A * W) : H A :=
  fun st =>
    let '(a, w) := f (run_world st) in
    (a, mkRun w (run_trace st ++ [e])).

End HandlerMonad.
Arguments Run W : clear implicits.
Arguments H W A : clear implicits.

Declare Scope publish_scope.
Delimit Scope publish_scope with publish.
Notation "x <- m ;; k" := (hbind m (fun x => k))
  (at level 100, m at next level, right associativity) : publish_scope.
Notation "m ;;; k" := (hbind m (fun _ => k))
  (at level 100, right associativity) : publish_scope.

(** What the remaining handlers need beyond [Collaborators]: [git], more of
    [data] and [users], [query.repo], and four JavaScript primitives whose
    result depends on what the source does not show: whether a package
    object has a truthy key of a given name and what deleting the key
    leaves, what [.ok] reads on the result of a call that is not awaited,
    and whether a string compares equal to [false] under [==]. *)
Class PublishCollaborators (W : Type) := {
  publish_core :: Collaborators W;
  git_Ownership : User -> string -> W -> Result unit * W;
  git_CreatePackage : string -> W -> Result Package * W;
  data_NewPackage : Package -> W -> Result unit * W;
  data_GetPackagePointerByName : option string -> W -> Result string * W;
  data_RemovePackageByName : string -> W -> Result unit * W;
  users_RemoveUserStar : string -> string -> W -> Result unit * W;
  query_repo : Request -> string;
  own_key_truthy : Package -> string -> bool;
  delete_key : Package -> string -> Package;
  unawaited_ok : Result unit -> bool;
  loosely_false : string -> bool;
}.

Section PublishHandlers.
Context {W : Type} {P : PublishCollaborators W}.

Local Open Scope publish_scope.

Definition handle_error {A} (r : Result A) : H W unit :=
  match r with
  | Ok _ => hemit (Core (CommonHandleError EmptyString EmptyString))
  | Fail short content => hemit (Core (CommonHandleError short content))
  end.

Definition verify_auth (auth : option string) : H W (Result User) :=
  hcall (Core (UsersVerifyAuth auth)) (users_VerifyAuth auth).

Definition get_package (pname : string) : H W (Result Package) :=
  hcall (Core (DataGetPackageByName pname)) (data_GetPackageByName pname).

(** *** POST /api/packages *)
Definition POSTPackages (req : Request) : H W unit :=
  let repository := query_repo req in
  let auth := req_authorization req in
  user <- verify_auth auth ;;
  match user with
  | Fail _ _ => handle_error user
  | Ok u =>
    if String.eqb repository EmptyString then hemit CommonBadRepoJSON
    else
      exists_ <- hcall (DataGetPackagePointerByName (repo_name repository))
                       (data_GetPackagePointerByName (repo_name repository)) ;;
      match exists_ with
      | Ok _ =>
        hemit ErrorPublishPackageExists ;;;
        hemit (Core LoggerHTTPLog)
      | Fail short _ =>
        if negb (String.eqb short "Not Found") then handle_error exists_
        else
          gitowner <- hcall (GitOwnership u repository)
                            (git_Ownership u repository) ;;
          match gitowner with
          | Fail _ _ => handle_error gitowner
          | Ok _ =>
            pack <- hcall (GitCreatePackage repository)
                          (git_CreatePackage repository) ;;
            match pack with
            | Fail _ _ => handle_error pack
            | Ok content =>
              create <- hcall (DataNewPackage content)
                              (data_NewPackage content) ;;
              match create with
              | Fail _ _ => handle_error create
              | Ok _ =>
                new_pack <- get_package (name content) ;;
                match new_pack with
                | Fail _ _ => handle_error new_pack
                | Ok stored =>
                  hemit (Core (CollectionPOFPrune stored)) ;;;
                  hemit (Core (ResStatusJson 201
                                 (JPackage (POFPrune_view (W := W) stored))))
                end
              end
            end
          end
      end
  end.

(** *** DELETE /api/packages/:packageName *)
Definition DELETEPackagesName (req : Request) : H W unit :=
  let auth := req_authorization req in
  let pname := decodeURIComponent (W := W) (req_params_packageName req) in
  user <- verify_auth auth ;;
  match user with
  | Fail _ _ => handle_error user
  | Ok u =>
    gitowner <- hcall (GitOwnership u pname) (git_Ownership u pname) ;;
    match gitowner with
    | Fail _ _ => handle_error gitowner
    | Ok _ =>
      rm <- hcall (DataRemovePackageByName pname)
                  (data_RemovePackageByName pname) ;;
      match rm with
      | Fail _ _ => handle_error rm
      | Ok _ =>
        hemit (ResStatusJsonMessage 204 "Success") ;;;
        hemit (Core LoggerHTTPLog)
      end
    end
  end.

(** The message [DELETEPackagesStar] logs when the package cannot be
    starred again. *)
Definition restar_failure_message : string :=
  "Failed to restar the package, after failing to unstar the user. Unstar logs followed by Restar logs...".

(** *** DELETE /api/packages/:packageName/star

    The callback handed to [utils.LocalUserLoggedIn], as a function of
    [user.content]. *)
Definition DELETEPackagesStar_onLogin (pname : string) (u : User) : H W unit :=
  pack <- hcall (Core (DataUnStarPackageByName pname (user_name u)))
                (data_UnStarPackageByName pname (user_name u)) ;;
  match pack with
  | Fail _ _ => handle_error pack
  | Ok _ =>
    unstar <- hcall (UsersRemoveUserStar pname (user_name u))
                    (users_RemoveUserStar pname (user_name u)) ;;
    match unstar with
    | Fail _ unstar_content =>
      restar <- hcall (Core (DataStarPackageByName pname (user_name u)))
                      (data_StarPackageByName pname (user_name u)) ;;
      match restar with
      | Ok _ => hemit (Core (CommonServerError unstar_content))
      | Fail _ restar_content =>
        hemit (Core ErrorServerErrorJSON) ;;;
        hemit (Core LoggerHTTPLog) ;;;
        hemit (Core (LoggerErrorLog restar_failure_message)) ;;;
        hemit (Core (LoggerErrorLog unstar_content)) ;;;
        hemit (Core (LoggerErrorLog restar_content))
      end
    | Ok _ => hemit (ResStatusSend 201)
    end
  end.

(** *** GET /api/packages/:packageName/stargazers *)
Definition GETPackagesStargazers (req : Request) : H W unit :=
  let pname := decodeURIComponent (W := W) (req_params_packageName req) in
  pack <- get_package pname ;;
  match pack with
  | Fail _ _ => handle_error pack
  | Ok content =>
    hemit (ResStatusJsonStargazers 200 (star_gazers content)) ;;;
    hemit (Core LoggerHTTPLog)
  end.

(** *** POST /api/packages/:packageName/versions

    The callback handed to [utils.LocalUserLoggedIn]. *)
Definition POSTPackagesVersion_onLogin (pname : string) (u : User) : H W unit :=
  gitowner <- hcall (GitOwnership u pname) (git_Ownership u pname) ;;
  match gitowner with
  | Fail _ _ => handle_error gitowner
  | Ok _ => hemit CommonNotSupported
  end.

(** [versionName == query.engine(versionName)]: a semver is handed back and
    equals itself; otherwise the string is compared with [false], which
    holds for the strings that convert to the number 0. *)
Definition version_passes (v : string) : bool :=
  match query_engine (W := W) (Some v) with
  | EStr s => String.eqb v s
  | EFalse => loosely_false v
  end.

Definition tarball_link (pname v : string) : string :=
  server_url (W := W) +:+ "/api/packages/" +:+ pname +:+ "/versions/" +:+ v
             +:+ "/tarball".

(** *** GET /api/packages/:packageName/versions/:versionName *)
Definition GETPackagesVersion (req : Request) : H W unit :=
  let pname := decodeURIComponent (W := W) (req_params_packageName req) in
  let v := req_params_versionName req in
  if version_passes v then
    pack <- get_package pname ;;
    match pack with
    | Ok content =>
      match versions content !! v with
      | Some ver =>
        hemit (ResStatusJsonVersion 200
                 (mkVersionView (tarball_url ver) (tarball_link pname v))) ;;;
        hemit (Core LoggerHTTPLog)
      | None => hemit (Core CommonNotFound)
      end
    | Fail _ _ => handle_error pack
    end
  else hemit (Core CommonNotFound).

(** *** DELETE /api/packages/:packageName/versions/:versionName

    The version name is looked up and deleted as a key of the package
    object itself; the missing-key branch does not return; the write is not
    awaited, so [write.ok] is read off the pending call. *)
Definition DELETEPackageVersion (req : Request) : H W unit :=
  let auth := req_authorization req in
  let pname := decodeURIComponent (W := W) (req_params_packageName req) in
  let v := req_params_versionName req in
  user <- verify_auth auth ;;
  match user with
  | Fail short content => hemit (Core (CommonAuthFail short content))
  | Ok u =>
    gitowner <- hcall (GitOwnership u pname) (git_Ownership u pname) ;;
    match gitowner with
    | Fail _ _ => handle_error gitowner
    | Ok _ =>
      pack <- get_package pname ;;
      match pack with
      | Fail _ _ => handle_error pack
      | Ok content =>
        (if negb (own_key_truthy content v)
         then hemit (Core CommonNotFound) else hret tt) ;;;
        let content := delete_key content v in
        write <- hcall (Core (DataSetPackageByName pname content))
                       (data_SetPackageByName pname content) ;;
        if negb (unawaited_ok write) then hemit CommonHandleErrorOfWrite
        else hemit (ResStatusSend 204)
      end
    end
  end.

Definition hrun (h : H W unit) (w : W) : Run W := snd (h (mkRun w [])).

End PublishHandlers.

Definition is_handler_response (e : HandlerEvent) : bool :=
  match e with
  | Core e => is_response e
  | CommonBadRepoJSON | ErrorPublishPackageExists | CommonNotSupported
  | CommonHandleErrorOfWrite | ResStatusJsonMessage _ _
  | ResStatusJsonStargazers _ _ | ResStatusJsonVersion _ _
  | ResStatusSend _ => true
  | _ => false
  end.

Definition count_handler_responses (t : list HandlerEvent) : nat :=
  length (filter (fun e => is_handler_response e = true) t).

(** The responses of a run, in the order they are sent. *)
Definition sent_responses (t : list Event) : list Event :=
  filter (fun e => is_response e = true) t.

(** The packages a publishing or deleting handler hands to
    [data.SetPackageByName], and those it hands to [data.NewPackage]. *)
Definition handler_written_packages (t : list HandlerEvent) : list Package :=
  omap (fun e => match e with
                 | Core (DataSetPackageByName _ c) => Some c
                 | _ => None
                 end) t.

Definition handler_created_packages (t : list HandlerEvent) : list Package :=
  omap (fun e => match e with DataNewPackage p => Some p | _ => None end) t.

Section LoggedIn.
Context {W : Type} {P : PublishCollaborators W}.

Local Open Scope publish_scope.

(** Modelled from the spec: [utils.LocalUserLoggedIn] for the handlers of
    this layer, as [utils_LocalUserLoggedIn] above; the callback is given
    [user.content]. *)
Definition local_user_logged_in (auth : option string)
    (onLogin : User -> H W unit) : H W unit :=
  user <- verify_auth auth ;;
  match user with
  | Ok u => onLogin u
  | Fail short content => hemit (Core (CommonAuthFail short content))
  end.

(** *** DELETE /api/packages/:packageName/star *)
Definition DELETEPackagesStar (req : Request) : H W unit :=
  let auth := req_authorization req in
  let pname := decodeURIComponent (W := W) (req_params_packageName req) in
  local_user_logged_in auth (DELETEPackagesStar_onLogin pname).

(** *** POST /api/packages/:packageName/versions

    [query.tag] and [query.rename] are read into [params] and not used. *)
Definition POSTPackagesVersion (req : Request) : H W unit :=
  let auth := req_authorization req in
  let pname := decodeURIComponent (W := W) (req_params_packageName req) in
  local_user_logged_in auth (POSTPackagesVersion_onLogin pname).

End LoggedIn.


(** ** The in-memory collaborators of the publishing handlers *)
Module MemPublish.

(** The account [alice] owns every repository; nobody else owns any. *)
Definition Ownership (u : User) (repo : string) (w : Mem.World)
  : Result unit * Mem.World :=
  if String.eqb (user_name u) "alice" then (Ok tt, w)
  else (Fail "Bad Auth" "not the owner", w).

Definition CreatePackage (repo : string) (w : Mem.World)
  : Result Package * Mem.World :=
  match repo_name repo with
  | Some n => (Ok (Mem.pkg n 0), w)
  | None => (Fail "Bad Repo" "no repository name", w)
  end.

Definition NewPackage (p : Package) (w : Mem.World) : Result unit * Mem.World :=
  if Mem.write_ok w
  then (Ok tt, Mem.with_packages (<[name p := p]> (Mem.packages w)) w)
  else (Fail "Server Error" "write failed", w).

Definition GetPackagePointerByName (key : option string) (w : Mem.World)
  : Result string * Mem.World :=
  match key with
  | Some k =>
    match Mem.packages w !! k with
    | Some _ => (Ok k, w)
    | None => (Fail "Not Found" "no pointer", w)
    end
  | None => (Fail "Not Found" "no pointer", w)
  end.

Definition RemovePackageByName (n : string) (w : Mem.World)
  : Result unit * Mem.World :=
  match Mem.packages w !! n with
  | Some _ => (Ok tt, Mem.with_packages (delete n (Mem.packages w)) w)
  | None => (Fail "Not Found" "package not found", w)
  end.

Definition RemoveUserStar (n u : string) (w : Mem.World)
  : Result unit * Mem.World :=
  if Mem.user_star_ok w then (Ok tt, w)
  else (Fail "Server Error" "user unstar failed", w).

Definition repo (req : Request) : string :=
  default EmptyString (req_query req !! "repository"%string).

(** Package objects here carry no key named like a version; the data
    functions are asynchronous, so a call that is not awaited shows no
    [ok]; the strings that convert to the number 0 are cut down to the
    empty string and the digit zero. *)
#[global] Instance collaborators : PublishCollaborators Mem.World := {|
  publish_core := Mem.collaborators;
  git_Ownership := Ownership;
  git_CreatePackage := CreatePackage;
  data_NewPackage := NewPackage;
  data_GetPackagePointerByName := GetPackagePointerByName;
  data_RemovePackageByName := RemovePackageByName;
  users_RemoveUserStar := RemoveUserStar;
  query_repo := repo;
  own_key_truthy := fun _ _ => false;
  delete_key := fun p _ => p;
  unawaited_ok := fun _ => false;
  loosely_false := fun s => String.eqb s EmptyString || String.eqb s "0";
|}.

Definition publish_request (auth : option string) (repository : string)
  : Request :=
  mkRequest {[ "repository"%string := repository ]} auth EmptyString EmptyString.

(** A world whose catalog cannot be read. *)
Definition broken_catalog : Mem.World :=
  Mem.mkWorld ∅ (Fail "Server Error" "catalog unreadable")
              (Fail "Server Error" "catalog unreadable")
              "secret" (mkUser "alice") true true true.

End MemPublish.

(** ** Arithmetic of the page count *)

Lemma Math_ceil_div_opp (a b : Z) :
  0 < b -> Math_ceil_div a b = - ((- a) / b).
Proof.
  intros Hb. destruct b as [|pb|pb]; try lia.
  unfold Math_ceil_div, Qceiling, Qfloor, Qdiv, Qmult, Qinv, Qopp, inject_Z.
  cbn [Qnum Qden]. rewrite Z.mul_1_r. reflexivity.
Qed.

Lemma total_pages_bounds (n p : Z) :
  0 < p ->
  (total_pages n p - 1) * p < n <= total_pages n p * p.
Proof.
  intros Hp. unfold total_pages. rewrite Math_ceil_div_opp by assumption.
  pose proof (Z.div_mod (- n) p ltac:(lia)) as Hdm.
  pose proof (Z.mod_pos_bound (- n) p Hp) as Hmod.
  nia.
Qed.

Lemma total_pages_unique (n p k : Z) :
  0 < p -> (k - 1) * p < n <= k * p -> total_pages n p = k.
Proof.
  intros Hp Hk. pose proof (total_pages_bounds n p Hp). nia.
Qed.

Lemma total_pages_nonneg (n p : Z) : 0 <= n -> 0 < p -> 0 <= total_pages n p.
Proof.
  intros Hn Hp. pose proof (total_pages_bounds n p Hp). nia.
Qed.

Lemma total_pages_zero (p : Z) : 0 < p -> total_pages 0 p = 0.
Proof. intros Hp. apply total_pages_unique; lia. Qed.

Lemma total_pages_pos (n p : Z) : 0 < n -> 0 < p -> 1 <= total_pages n p.
Proof.
  intros Hn Hp. pose proof (total_pages_bounds n p Hp). nia.
Qed.

(** ** [splice] at the two places the handlers use it *)

Section SpliceFacts.
Context {A : Type}.
Implicit Types l : list A.

(** [splice(0, k)] drops the first [k] elements. *)
Lemma splice_front (k : Z) l :
  0 <= k -> splice 0 k l = drop (Z.to_nat k) l.
Proof.
  intros Hk. unfold splice. cbn [Z.ltb Z.compare].
  rewrite Z.min_l by lia. cbn [Z.to_nat take app].
  rewrite Z.add_0_l, Z.sub_0_r, Z.max_l by lia.
  destruct (Z.le_gt_cases k (Z.of_nat (length l))) as [Hle|Hgt].
  - rewrite Z.min_l by lia. reflexivity.
  - rewrite Z.min_r by lia. rewrite Nat2Z.id.
    rewrite !drop_ge by lia. reflexivity.
Qed.

(** [splice(s, length)] keeps the first [s] elements. *)
Lemma splice_tail (s : Z) l :
  0 <= s -> splice s (Z.of_nat (length l)) l = take (Z.to_nat s) l.
Proof.
  intros Hs. unfold splice.
  replace (s <? 0) with false by (symmetry; apply Z.ltb_ge; lia).
  rewrite (Z.max_l (Z.of_nat (length l)) 0) by lia.
  rewrite (Z.min_r (Z.of_nat (length l))) by lia.
  replace (Z.min s (Z.of_nat (length l))
           + (Z.of_nat (length l) - Z.min s (Z.of_nat (length l))))
    with (Z.of_nat (length l)) by lia.
  rewrite Nat2Z.id, drop_all, app_nil_r.
  destruct (Z.le_gt_cases s (Z.of_nat (length l))) as [Hle|Hgt].
  - rewrite Z.min_l by lia. reflexivity.
  - rewrite Z.min_r by lia. rewrite Nat2Z.id.
    rewrite !take_ge by lia. reflexivity.
Qed.

(** The content of a page in terms of [take] and [drop]. *)
Lemma kept_on_page_take_drop (page p : Z) l :
  0 <= page -> 0 < p ->
  kept_on_page page p l =
    let total := total_pages (Z.of_nat (length l)) p in
    let l1 := if page =? 1 then l else drop (Z.to_nat (page * p)) l in
    if page =? total then l1 else take (Z.to_nat (page * p + p)) l1.
Proof.
  intros Hpage Hp. unfold kept_on_page. cbn zeta.
  destruct (page =? 1); cbn [negb];
    destruct (page =? _); cbn [negb];
    rewrite ?splice_front by nia; try reflexivity;
    apply splice_tail; nia.
Qed.

(** A page past the last one is empty. *)
Lemma kept_on_page_beyond_last (page p : Z) l :
  0 < p -> total_pages (Z.of_nat (length l)) p < page ->
  kept_on_page page p l = [].
Proof.
  intros Hp Hbeyond.
  pose proof (total_pages_bounds (Z.of_nat (length l)) p Hp) as Hb.
  destruct l as [|x l'].
  - rewrite kept_on_page_take_drop by
      (try assumption; cbn [length] in *; rewrite total_pages_zero in Hbeyond; lia).
    cbn zeta. repeat case_match; by rewrite ?drop_nil, ?take_nil.
  - assert (1 <= total_pages (Z.of_nat (length (x :: l'))) p) as Hone
      by (apply total_pages_pos; [cbn [length]; lia | assumption]).
    rewrite kept_on_page_take_drop by lia. cbn zeta.
    replace (page =? 1) with false by (symmetry; apply Z.eqb_neq; lia).
    rewrite (drop_ge (x :: l')) by nia.
    case_match; by rewrite ?take_nil.
Qed.

End SpliceFacts.

(** ** Running the listing handlers *)

Lemma alter_lookup_Some {V} (f : V -> V) (r : Ref) (h : gmap Ref V) (v : V) :
  h !! r = Some v -> alter f r h = <[r := f v]> h.
Proof.
  intros Hr. apply map_eq. intros i.
  rewrite lookup_alter, lookup_insert.
  case_decide; subst; [by rewrite Hr | done].
Qed.

Section Runs.
Context {W : Type} {C : Collaborators W}.
Implicit Types (st : St W) (hp : gmap Ref (list Package)) (w : W).

(** [prune_to_page] replaces the content [l] of the array by
    [kept_on_page page paginated_amount l] and returns the page count of
    [l]. *)
Lemma prune_to_page_run r page l hp w (t : list Event) :
  hp !! r = Some l ->
  prune_to_page r page (mkSt hp w t) =
    (total_pages (Z.of_nat (length l)) paginated_amount,
     mkSt (<[r := kept_on_page page paginated_amount l]> hp) w t).
Proof.
  intros Hr.
  unfold prune_to_page, kept_on_page, bind, array_length, array_splice,
    array_update, when_, ret.
  cbn [heap world trace]. rewrite Hr. cbn [default].
  destruct (page =? 1); cbn [negb heap world trace];
    destruct (page =? _); cbn [negb heap world trace].
  - by rewrite insert_id.
  - rewrite Hr. cbn [default]. by rewrite (alter_lookup_Some _ _ _ _ Hr).
  - by rewrite (alter_lookup_Some _ _ _ _ Hr).
  - rewrite (alter_lookup_Some _ _ _ _ Hr), lookup_insert_eq. cbn [default].
    rewrite (alter_lookup_Some _ r _ _ (lookup_insert_eq _ _ _)).
    by rewrite insert_insert_eq.
Qed.

(** A newly allocated array is none of the arrays in the store. *)
Lemma fresh_ne hp r (l : list Package) : hp !! r = Some l -> fresh (dom hp) <> r.
Proof.
  intros Hr Heq. pose proof (is_fresh (dom hp)) as Hf.
  rewrite Heq in Hf. apply Hf, elem_of_dom. eauto.
Qed.

(** A successful run of [GETPackages]: the calls it makes, the body it
    sends, and the content it leaves in the array [data.GetAllPackages]
    returned, which is the array it sorted and cut. *)
Lemma GETPackages_run req hp w r w1 l :
  data_GetAllPackages w = (Ok r, w1) ->
  hp !! r = Some l ->
  let page := query_page req in
  let srt := query_sort req None in
  let dir := query_dir req in
  let sorted := Direction_order dir (Sort_order srt l) in
  let kept := kept_on_page page paginated_amount sorted in
  let st := run (GETPackages req) hp w in
  heap st !! r = Some kept /\
  world st = w1 /\
  trace st =
    [DataGetAllPackages; ConsoleLog "retreived all packages";
     CollectionDeepCopy; CollectionSort r srt; CollectionDirection r dir;
     CollectionPOSPrune r;
     ResAppend "Link"
       (format_Link
          (mkLinkPages page (total_pages (Z.of_nat (length sorted)) paginated_amount) page)
          srt dir);
     ResStatusJson 200 (JPackages (POSPrune_view kept));
     LoggerHTTPLog].
Proof.
  intros Hall Hr page srt dir sorted kept st. subst st.
  unfold run, GETPackages, bind, call. cbn [heap world trace].
  rewrite Hall.
  unfold emit, collection_DeepCopy, collection_Sort, collection_Direction,
    bind, emit, array_content, array_alloc, array_update, ret.
  cbn [heap world trace app p_page p_sort p_direction].
  rewrite Hr. cbn [default].
  fold page srt dir. unfold id. fold sorted.
  set (hp1 := alter _ r (alter _ r _)).
  assert (hp1 !! r = Some sorted) as Hr1.
  { subst hp1. rewrite !lookup_alter_eq, lookup_insert_ne by (by eapply fresh_ne).
    by rewrite Hr. }
  rewrite (prune_to_page_run r page _ _ _ _ Hr1).
  cbn [heap world trace]. fold kept.
  unfold collection_POSPrune, bind, emit, array_content, array_alloc, ret, link_pages,
    page_post_increment.
  cbn [heap world trace app p_page p_sort p_direction].
  rewrite lookup_insert_eq. cbn [default snd]. unfold id.
  rewrite lookup_insert_eq. cbn [default heap world trace].
  repeat split.
  rewrite lookup_insert_ne, lookup_insert_eq; [done|].
  eapply fresh_ne. apply lookup_insert_eq.
Qed.

(** A successful run of [GETPackagesSearch]: every array that was in the
    store before the request has its content afterwards; the handler works
    on the copies [r1] and [r2]. *)
Lemma GETPackagesSearch_run req hp w r w1 l :
  data_GetAllPackages w = (Ok r, w1) ->
  hp !! r = Some l ->
  let page := query_page req in
  let srt := query_sort req (Some "relevance"%string) in
  let dir := query_dir req in
  let q := query_query req in
  let sorted :=
    Direction_order dir (Sort_order srt (SearchWithinPackages_result q l)) in
  let kept := kept_on_page page paginated_amount sorted in
  let st := run (GETPackagesSearch req) hp w in
  (forall r' l', hp !! r' = Some l' -> heap st !! r' = Some l') /\
  world st = w1 /\
  exists r1 r2,
    trace st =
      [DataGetAllPackages; CollectionDeepCopy;
       CollectionSearchWithinPackages q r1;
       CollectionSort r2 srt; CollectionDirection r2 dir;
       CollectionPOSPrune r2;
       ResAppend "Link"
         (format_search_Link
            (mkLinkPages page
               (total_pages (Z.of_nat (length sorted)) paginated_amount) page)
            q srt dir);
       ResStatusJson 200 (JPackages (POSPrune_view kept));
       LoggerHTTPLog].
Proof.
  intros Hall Hr page srt dir q sorted kept st. subst st.
  unfold run, GETPackagesSearch, bind, call. cbn [heap world trace].
  rewrite Hall.
  unfold emit, collection_DeepCopy, collection_SearchWithinPackages,
    collection_Sort, collection_Direction,
    bind, emit, array_content, array_alloc, array_update, ret.
  cbn [heap world trace app s_page s_sort s_direction s_query].
  rewrite Hr. cbn [default]. unfold id.
  rewrite lookup_insert_eq. cbn [default]. unfold id.
  fold page srt dir q.
  set (r1 := fresh (dom hp)).
  set (r2 := fresh (dom (<[r1 := l]> hp))).
  set (hp2 := alter _ r2 (alter _ r2 _)).
  assert (hp2 !! r2 = Some sorted) as Hr2.
  { subst hp2. by rewrite !lookup_alter_eq, lookup_insert_eq. }
  rewrite (prune_to_page_run r2 page _ _ _ _ Hr2).
  cbn [heap world trace]. fold kept.
  unfold collection_POSPrune, bind, emit, array_content, array_alloc, ret,
    search_link_pages, search_page_post_increment.
  cbn [heap world trace app s_page s_sort s_direction s_query].
  rewrite lookup_insert_eq. cbn [default snd]. unfold id.
  rewrite lookup_insert_eq. cbn [default heap world trace].
  split; [|split; [done | by exists r1, r2]].
  intros r' l' Hr'.
  assert (r1 <> r') as Hne1 by (by eapply fresh_ne).
  assert (r2 <> r') as Hne2.
  { eapply fresh_ne. by rewrite lookup_insert_ne. }
  rewrite lookup_insert_ne.
  - rewrite lookup_insert_ne by done. subst hp2.
    by rewrite !lookup_alter_ne, !lookup_insert_ne.
  - eapply fresh_ne. rewrite lookup_insert_ne by done. subst hp2.
    by rewrite !lookup_alter_ne, !lookup_insert_ne.
Qed.
End Runs.

(** ** Handlers that never emit a given kind of event *)

Section Quiet.
Context {W : Type} {C : Collaborators W}.

Variable P : Event -> Prop.

Lemma quiet_ret {A} (a : A) : quiet (W:=W) P (ret a).
Proof. by intros st. Qed.

Lemma quiet_bind {A B} (m : M W A) (k : A -> M W B) :
  quiet P m -> (forall a, quiet P (k a)) -> quiet P (bind m k).
Proof.
  intros Hm Hk st Hst. unfold bind.
  specialize (Hm st Hst). destruct (m st) as [a st']. by apply Hk.
Qed.

Lemma quiet_emit e : P e -> quiet (W:=W) P (emit e).
Proof.
  intros He st Hst. cbn. apply Forall_app. split; [done | by constructor].
Qed.

Lemma quiet_call {A} e (f : W -> A * W) : P e -> quiet P (call e f).
Proof.
  intros He st Hst. unfold call. destruct (f (world st)) as [a w]. cbn.
  apply Forall_app. split; [done | by constructor].
Qed.

Lemma quiet_when (b : bool) (m : M W unit) : quiet P m -> quiet P (when_ b m).
Proof. destruct b; [done | intros _; apply quiet_ret]. Qed.

Lemma quiet_array_content r : quiet (W:=W) P (array_content r).
Proof. by intros st. Qed.

Lemma quiet_array_length r : quiet (W:=W) P (array_length r).
Proof. by intros st. Qed.

Lemma quiet_array_update f r : quiet (W:=W) P (array_update f r).
Proof. by intros st. Qed.

Lemma quiet_array_alloc l : quiet (W:=W) P (array_alloc l).
Proof. by intros st. Qed.

Lemma quiet_run (h : M W unit) hp w : quiet P h -> Forall P (trace (run h hp w)).
Proof. intros Hh. apply Hh. constructor. Qed.

End Quiet.

Ltac quiet_step :=
  first
    [ apply quiet_ret
    | apply quiet_emit
    | apply quiet_call
    | apply quiet_when
    | apply quiet_array_content
    | apply quiet_array_length
    | apply quiet_array_update
    | apply quiet_array_alloc
    | apply quiet_bind; [| intros ?] ].

Ltac quiet_auto :=
  repeat first
    [ quiet_step
    | match goal with
      | |- quiet _ (match ?x with _ => _ end) => destruct x
      | |- quiet _ (if ?b then _ else _) => destruct b
      | |- quiet _ (let '(_, _) := ?x in _) => destruct x
      end ].


(** ** What the handlers do for every set of collaborators *)

Ltac unfold_monad :=
  cbv beta iota zeta delta
    [run bind ret emit call when_ common_HandleError common_AuthFail
     call_VerifyAuth utils_LocalUserLoggedIn collection_POFPrune
     collection_EngineFilter collection_DeepCopy_object
     heap world trace fst snd app].

Ltac exists_cases H :=
  repeat first
    [ apply Exists_nil in H; contradiction
    | apply Exists_cons in H as [H|H]; [cbn in H; try discriminate H|] ].

Section Generic.
Context {W : Type} {C : Collaborators W}.
Implicit Types (req : Request) (hp : gmap Ref (list Package)) (w : W).

(** C9.  A tarball request for a valid semver that the named package
    contains is answered with a redirect to the tarball URL of that version,
    whether or not saving the incremented download count succeeds: after
    the two calls to [data], the trace holds a warning when the save failed
    and nothing when it succeeded, then the redirect and the HTTP log.  No
    error response is sent. *)
Theorem tarball_redirects_even_if_save_fails req hp w content w1 ver :
  valid_semver (req_params_versionName req) = true ->
  req_params_versionName req <> EmptyString ->
  data_GetPackageByName (decodeURIComponent (req_params_packageName req)) w
    = (Ok content, w1) ->
  versions content !! req_params_versionName req = Some ver ->
  trace (run (GETPackagesVersionTarball req) hp w) =
    [DataGetPackageByName (decodeURIComponent (req_params_packageName req));
     DataSetPackageByName (decodeURIComponent (req_params_packageName req))
       (mkPackage (name content) (downloads content + 1)
                  (star_gazers content) (versions content))]
    ++ match (data_SetPackageByName
                (decodeURIComponent (req_params_packageName req))
                (mkPackage (name content) (downloads content + 1)
                           (star_gazers content) (versions content)) w1).1 with
       | Ok _ => []
       | Fail _ save_content => [LoggerWarningLog save_content]
       end
    ++ [ResRedirect (tarball_url ver); LoggerHTTPLog].
Proof.
  intros Hsemver Hne Hget Hver.
  unfold GETPackagesVersionTarball, query_engine. rewrite Hsemver.
  cbn [truthy].
  replace (String.eqb (req_params_versionName req) EmptyString) with false
    by (symmetry; by apply String.eqb_neq).
  cbn [negb]. unfold_monad. rewrite Hget. rewrite Hver.
  cbn [versions]. rewrite Hver.
  destruct (data_SetPackageByName _ _ w1) as [[?|? ?] ?]; reflexivity.
Qed.

(** C10.  When the star was added to the package and adding it to the
    profile of the user fails, the next call of [POSTPackagesStar] is
    [data.UnStarPackageByName] for the same package and user, and what
    follows is a server error.  A 200 response occurs only in the run where
    the credentials were accepted and both [data.StarPackageByName] and
    [users.AddUserStar] succeeded. *)
Theorem star_ok_only_when_recorded_twice req hp w :
  let auth := req_authorization req in
  let pname := decodeURIComponent (req_params_packageName req) in
  let t := trace (run (POSTPackagesStar req) hp w) in
  (forall u w1 starred w2 short star_content w3,
      users_VerifyAuth auth w = (Ok u, w1) ->
      data_StarPackageByName pname (user_name u) w1 = (Ok starred, w2) ->
      users_AddUserStar pname (user_name u) w2 = (Fail short star_content, w3) ->
      exists rest,
        t = [UsersVerifyAuth auth;
             DataStarPackageByName pname (user_name u);
             UsersAddUserStar pname (user_name u);
             DataUnStarPackageByName pname (user_name u)] ++ rest
        /\ (rest = [CommonServerError star_content]
            \/ exists unstar_content,
                rest = [ErrorServerErrorJSON; LoggerHTTPLog;
                        LoggerErrorLog star_failure_message;
                        LoggerErrorLog unstar_content;
                        LoggerErrorLog star_content]))
  /\ (Exists (fun e => is_ok_response e = true) t ->
      exists u w1 starred w2 x w3,
        users_VerifyAuth auth w = (Ok u, w1)
        /\ data_StarPackageByName pname (user_name u) w1 = (Ok starred, w2)
        /\ users_AddUserStar pname (user_name u) w2 = (Ok x, w3)
        /\ t = [UsersVerifyAuth auth;
                DataStarPackageByName pname (user_name u);
                UsersAddUserStar pname (user_name u);
                ResStatusJson 200 (JPackage starred);
                LoggerHTTPLog]).
Proof.
  intros auth pname t. subst t. split.
  - intros u w1 starred w2 short star_content w3 Hauth Hstar Hadd.
    unfold POSTPackagesStar. fold auth pname. unfold_monad.
    rewrite Hauth, Hstar, Hadd.
    destruct (data_UnStarPackageByName pname (user_name u) w3)
      as [[?|? unstar_content] ?]; eexists; (split; [reflexivity|]).
    + by left.
    + right. by exists unstar_content.
  - unfold POSTPackagesStar. fold auth pname. unfold_monad.
    destruct (users_VerifyAuth auth w) as [[u|? ?] w1] eqn:Hauth.
    2:{ intros Hex. exists_cases Hex. }
    destruct (data_StarPackageByName pname (user_name u) w1)
      as [[starred|? ?] w2] eqn:Hstar.
    2:{ intros Hex. exists_cases Hex. }
    destruct (users_AddUserStar pname (user_name u) w2)
      as [[x|? ?] w3] eqn:Hadd.
    { intros _. by exists u, w1, starred, w2, x, w3. }
    intros Hex.
    destruct (data_UnStarPackageByName pname (user_name u) w3)
      as [[?|? ?] ?]; exists_cases Hex.
Qed.

Ltac quiet_handler :=
  unfold GETPackages, GETPackagesSearch, GETPackagesFeatured,
    GETPackagesDetails, POSTPackagesStar,
    common_HandleError, common_AuthFail, call_VerifyAuth,
    collection_DeepCopy, collection_DeepCopy_object, collection_Sort,
    collection_Direction, collection_SearchWithinPackages,
    collection_POSPrune, collection_POFPrune, collection_EngineFilter,
    prune_to_page, array_splice;
  quiet_auto; try reflexivity; try exact I.

Lemma GETPackages_no_EngineFilter req : quiet not_EngineFilter (GETPackages req).
Proof. quiet_handler. Qed.

Lemma GETPackagesSearch_no_EngineFilter req :
  quiet not_EngineFilter (GETPackagesSearch req).
Proof. quiet_handler. Qed.

Lemma GETPackagesFeatured_no_EngineFilter req :
  quiet not_EngineFilter (GETPackagesFeatured req).
Proof. quiet_handler. Qed.

Lemma GETPackages_no_SetPackage req : quiet not_SetPackage (GETPackages req).
Proof. quiet_handler. Qed.

Lemma GETPackagesSearch_no_SetPackage req :
  quiet not_SetPackage (GETPackagesSearch req).
Proof. quiet_handler. Qed.

Lemma GETPackagesFeatured_no_SetPackage req :
  quiet not_SetPackage (GETPackagesFeatured req).
Proof. quiet_handler. Qed.

Lemma GETPackagesDetails_no_SetPackage req :
  quiet not_SetPackage (GETPackagesDetails req).
Proof. quiet_handler. Qed.

Lemma POSTPackagesStar_no_SetPackage req :
  quiet not_SetPackage (POSTPackagesStar req).
Proof. quiet_handler. Qed.

(** C6.  The listing, search and featured handlers never call
    [collection.EngineFilter].  The detail view calls it only when the
    request carries an engine version that is a semver; when the version is
    absent or is not a semver, a found package is sent with status 200 as
    pruned, unfiltered; when it is a semver, the package sent is the
    filtered one. *)
Theorem EngineFilter_only_on_details req hp w :
  let pname := decodeURIComponent (req_params_packageName req) in
  let requested := req_query req !! "engine"%string in
  let t := trace (run (GETPackagesDetails req) hp w) in
  Forall not_EngineFilter (trace (run (GETPackages req) hp w))
  /\ Forall not_EngineFilter (trace (run (GETPackagesSearch req) hp w))
  /\ Forall not_EngineFilter (trace (run (GETPackagesFeatured req) hp w))
  /\ (Exists (fun e => is_EngineFilter e = true) t ->
      exists v, requested = Some v /\ valid_semver v = true)
  /\ (forall content w1,
        data_GetPackageByName pname w = (Ok content, w1) ->
        (forall v, requested = Some v -> valid_semver v = false) ->
        t = [DataGetPackageByName pname; CollectionDeepCopy;
             CollectionPOFPrune content;
             ResStatusJson 200 (JPackage (POFPrune_view content));
             LoggerHTTPLog])
  /\ (forall content w1 v,
        data_GetPackageByName pname w = (Ok content, w1) ->
        requested = Some v -> valid_semver v = true -> v <> EmptyString ->
        t = [DataGetPackageByName pname; CollectionDeepCopy;
             CollectionPOFPrune content;
             CollectionEngineFilter (POFPrune_view content) v;
             ResStatusJson 200
               (JPackage (EngineFilter_view (POFPrune_view content) v));
             LoggerHTTPLog]).
Proof.
  intros pname requested t.
  split; [apply quiet_run, GETPackages_no_EngineFilter|].
  split; [apply quiet_run, GETPackagesSearch_no_EngineFilter|].
  split; [apply quiet_run, GETPackagesFeatured_no_EngineFilter|].
  subst t. unfold GETPackagesDetails, query_engine.
  fold pname requested. unfold_monad.
  split; [|split].
  - destruct (data_GetPackageByName pname w) as [[content|? ?] w1].
    2:{ intros Hex. exists_cases Hex. }
    destruct requested as [v|]; [|intros Hex; exists_cases Hex].
    destruct (valid_semver v) eqn:Hv; [by exists v|].
    intros Hex. exists_cases Hex.
  - intros content w1 Hget Hbad. rewrite Hget.
    destruct requested as [v|]; [|reflexivity].
    by rewrite (Hbad v eq_refl).
  - intros content w1 v Hget -> Hv Hne. rewrite Hget, Hv. cbn [truthy].
    replace (String.eqb v EmptyString) with false
      by (symmetry; by apply String.eqb_neq).
    reflexivity.
Qed.

End Generic.

(** ** The handlers on sample data *)

(** C1.  With seven packages and a page size of three, the first page
    answered by [GETPackages] and by [GETPackagesSearch] holds the six
    packages with the most downloads, where the index range
    [(page-1)*p, page*p) holds three; the second page holds the single last
    package, where the range holds the fourth to sixth. *)
Theorem first_page_of_seven_holds_six :
  Mem.listing_bodies Mem.seven "1" = [take 6 Mem.seven_sorted]
  /\ Mem.search_bodies Mem.seven "1" = [take 6 Mem.seven_sorted]
  /\ spec_slice 1 3 Mem.seven_sorted = take 3 Mem.seven_sorted
  /\ Mem.listing_bodies Mem.seven "2" = [drop 6 Mem.seven_sorted]
  /\ Mem.search_bodies Mem.seven "2" = [drop 6 Mem.seven_sorted]
  /\ spec_slice 2 3 Mem.seven_sorted = take 3 (drop 3 Mem.seven_sorted).
Proof. vm_compute. repeat split; reflexivity. Qed.

(** C2.  With ten packages and a page size of three there are four pages;
    the search results of pages 1 to 4, concatenated, are the sorted
    catalog followed by its last package a second time. *)
Theorem search_pages_of_ten_repeat_a_package :
  total_pages 10 3 = 4
  /\ flat_map (fun pg => concat (Mem.search_bodies Mem.ten pg))
              ["1"; "2"; "3"; "4"]%string
     = Mem.ten_sorted ++ [Mem.pkg "j" 7].
Proof. vm_compute. split; reflexivity. Qed.

(** C3, counterexample.  For an empty catalog the page count is 0, not the
    1 that [max(1, ceil(total_count / p))] gives. *)
Lemma total_pages_empty_catalog : total_pages 0 30 <> spec_total_pages 0 30.
Proof. vm_compute. discriminate. Qed.

(** C3, as amended.  For a non-negative item count and a positive page
    size the page count is the ceiling of their quotient: the least [k]
    with [total_count <= k * p].  It equals [max(1, ceil(total_count / p))]
    when there is at least one item, and is 0 when there is none. *)
Theorem total_pages_is_ceiling (n p : Z) :
  0 <= n -> 0 < p ->
  (total_pages n p - 1) * p < n <= total_pages n p * p
  /\ (0 < n -> total_pages n p = spec_total_pages n p)
  /\ (n = 0 -> total_pages n p = 0).
Proof.
  intros Hn Hp. split; [by apply total_pages_bounds|]. split.
  - intros Hpos. unfold spec_total_pages. fold (total_pages n p).
    pose proof (total_pages_pos n p Hpos Hp). lia.
  - intros ->. by apply total_pages_zero.
Qed.

Lemma total_pages_is_ceiling_witness :
  (0 <= 7 /\ 0 < 3)
  /\ (total_pages 7 3 - 1) * 3 < 7 <= total_pages 7 3 * 3
  /\ (0 < 7 -> total_pages 7 3 = spec_total_pages 7 3)
  /\ (7 = 0 -> total_pages 7 3 = 0).
Proof. split; [lia | apply (total_pages_is_ceiling 7 3); lia]. Defined.

(** C4.  For page 1 of seven packages the [Link] header of both handlers
    carries page 1 in its self link, page 3 in its last link and page 1
    again, not page 2, in its next link. *)
Theorem next_link_repeats_the_page :
  Mem.listing_links Mem.seven "1"
  = [format_Link (C := Mem.collaborators) (mkLinkPages 1 3 1) "downloads" "desc"]
  /\ Mem.search_links Mem.seven "1"
     = [format_search_Link (C := Mem.collaborators) (mkLinkPages 1 3 1)
          EmptyString "downloads" "desc"]
  /\ format_Link (C := Mem.collaborators) (mkLinkPages 1 3 1) "downloads" "desc"
     <> format_Link (C := Mem.collaborators) (mkLinkPages 1 3 2) "downloads" "desc".
Proof. vm_compute. repeat split; try reflexivity. discriminate. Qed.

(** C5.  After [GETPackages] has answered page 2 of seven packages, the
    cached catalog array holds one package; after [GETPackagesSearch] has
    answered the same page it still holds the seven, in their order. *)
Theorem listing_cuts_the_cached_catalog :
  Mem.cache_after_listing Mem.seven "2" = Some [Mem.pkg "g" 10]
  /\ Mem.cache_after_search Mem.seven "2" = Some Mem.seven.
Proof. vm_compute. split; reflexivity. Qed.

(** C6 at a concrete request: the detail view of package [a] filtered for
    engine 1.0.0, in the in-memory environment. *)
Lemma EngineFilter_only_on_details_witness :
  (Mem.GetPackageByName "a" (Mem.world_a 5 true true true)
     = (Ok (Mem.pkg "a" 5), Mem.world_a 5 true true true)
   /\ req_query (Mem.details_request "a" "1.0.0") !! "engine"%string
      = Some "1.0.0"%string
   /\ Mem.semver "1.0.0" = true
   /\ "1.0.0"%string <> EmptyString)
  /\ trace (run (GETPackagesDetails (Mem.details_request "a" "1.0.0")) ∅
               (Mem.world_a 5 true true true))
     = [DataGetPackageByName "a"; CollectionDeepCopy;
        CollectionPOFPrune (Mem.pkg "a" 5);
        CollectionEngineFilter (Mem.pkg "a" 5) "1.0.0";
        ResStatusJson 200 (JPackage (Mem.pkg "a" 5));
        LoggerHTTPLog].
Proof.
  split; [repeat split; discriminate|].
  destruct (EngineFilter_only_on_details (C := Mem.collaborators)
              (Mem.details_request "a" "1.0.0") ∅ (Mem.world_a 5 true true true))
    as (_ & _ & _ & _ & _ & Hfiltered).
  apply (Hfiltered (Mem.pkg "a" 5) (Mem.world_a 5 true true true) "1.0.0"%string);
    [reflexivity.. | discriminate].
Defined.


(** C9 at a concrete request: the tarball of version 1.0.0 of package [a]
    while writes fail. *)
Lemma tarball_redirects_even_if_save_fails_witness :
  (Mem.semver "1.0.0" = true
   /\ "1.0.0"%string <> EmptyString
   /\ Mem.GetPackageByName "a" (Mem.world_a 0 false true true)
      = (Ok (Mem.pkg "a" 0), Mem.world_a 0 false true true)
   /\ versions (Mem.pkg "a" 0) !! "1.0.0"%string
      = Some (mkVersion "https://tarballs/a"))
  /\ trace (run (GETPackagesVersionTarball
                   (Mem.package_request None "a" "1.0.0"))
                ∅ (Mem.world_a 0 false true true))
     = [DataGetPackageByName "a"; DataSetPackageByName "a" (Mem.pkg "a" 1);
        LoggerWarningLog "write failed";
        ResRedirect "https://tarballs/a"; LoggerHTTPLog].
Proof.
  split; [repeat split; discriminate|].
  apply (tarball_redirects_even_if_save_fails (C := Mem.collaborators)
           (Mem.package_request None "a" "1.0.0") ∅
           (Mem.world_a 0 false true true) (Mem.pkg "a" 0)
           (Mem.world_a 0 false true true) (mkVersion "https://tarballs/a"));
    [reflexivity | discriminate | reflexivity..].
Defined.

(** C10 at a concrete request: starring package [a] while the profile of
    the user cannot be updated. *)
Lemma star_ok_only_when_recorded_twice_witness :
  exists rest,
    trace (run (POSTPackagesStar
                  (Mem.package_request (Some "secret"%string) "a" "1.0.0"))
               ∅ (Mem.world_a 0 true false true))
    = [UsersVerifyAuth (Some "secret"%string);
       DataStarPackageByName "a" "alice";
       UsersAddUserStar "a" "alice";
       DataUnStarPackageByName "a" "alice"] ++ rest
    /\ (rest = [CommonServerError "user star failed"]
        \/ exists unstar_content,
            rest = [ErrorServerErrorJSON; LoggerHTTPLog;
                    LoggerErrorLog star_failure_message;
                    LoggerErrorLog unstar_content;
                    LoggerErrorLog "user star failed"]).
Proof.
  destruct (star_ok_only_when_recorded_twice (C := Mem.collaborators)
              (Mem.package_request (Some "secret"%string) "a" "1.0.0")
              ∅ (Mem.world_a 0 true false true))
    as (Hrollback & _).
  eapply (Hrollback (mkUser "alice")); reflexivity.
Defined.

(** ** Further properties of the listing, star and download handlers *)

Section SpliceSublist.
Context {A : Type}.
Implicit Types l : list A.

Lemma splice_sublist (start deleteCount : Z) l :
  splice start deleteCount l `sublist_of` l.
Proof.
  unfold splice.
  set (len := Z.of_nat (length l)).
  set (a := if start <? 0 then Z.max (len + start) 0 else Z.min start len).
  set (d := Z.min (Z.max deleteCount 0) (len - a)).
  assert (0 <= a <= len) as Ha by (subst a len; destruct (Z.ltb_spec start 0); lia).
  assert (0 <= d) as Hd by (subst d; lia).
  rewrite <- (take_drop (Z.to_nat a) l) at 3.
  apply sublist_app; [done|].
  replace (Z.to_nat (a + d)) with (Z.to_nat a + Z.to_nat d)%nat by lia.
  rewrite <- drop_drop. apply sublist_drop.
Qed.

Lemma kept_on_page_sublist (page p : Z) l :
  kept_on_page page p l `sublist_of` l.
Proof.
  unfold kept_on_page. cbn zeta.
  destruct (negb (page =? 1)); destruct (negb (page =? _));
    try done; try apply splice_sublist.
  etrans; apply splice_sublist.
Qed.
End SpliceSublist.

Section ListingExtras.
Context {W : Type} {C : Collaborators W}.
Implicit Types (req : Request) (hp : gmap Ref (list Package)) (w : W).

Lemma GETPackages_bodies req hp w r w1 l :
  data_GetAllPackages w = (Ok r, w1) ->
  hp !! r = Some l ->
  response_bodies (trace (run (GETPackages req) hp w))
  = [POSPrune_view
       (kept_on_page (query_page req) paginated_amount (listing_sorted req l))].
Proof.
  intros Hall Hr.
  destruct (GETPackages_run req hp w r w1 l Hall Hr) as (_ & _ & ->).
  reflexivity.
Qed.

Lemma GETPackagesSearch_bodies req hp w r w1 l :
  data_GetAllPackages w = (Ok r, w1) ->
  hp !! r = Some l ->
  response_bodies (trace (run (GETPackagesSearch req) hp w))
  = [POSPrune_view
       (kept_on_page (query_page req) paginated_amount (search_sorted req l))].
Proof.
  intros Hall Hr.
  destruct (GETPackagesSearch_run req hp w r w1 l Hall Hr)
    as (_ & _ & r1 & r2 & ->).
  reflexivity.
Qed.

(** X1.  Whatever the page number and the page size are, the array a
    successful listing or search request sends is the pruned view of a
    sublist of the sorted sequence: a selection of its positions, in the
    sorted order, no position taken twice. *)
Theorem listing_pages_select_from_sorted req hp w r w1 l :
  data_GetAllPackages w = (Ok r, w1) ->
  hp !! r = Some l ->
  (exists kept,
      kept `sublist_of` listing_sorted req l
      /\ response_bodies (trace (run (GETPackages req) hp w))
         = [POSPrune_view kept])
  /\ (exists kept,
         kept `sublist_of` search_sorted req l
         /\ response_bodies (trace (run (GETPackagesSearch req) hp w))
            = [POSPrune_view kept]).
Proof.
  intros Hall Hr. split; eexists; (split; [apply kept_on_page_sublist|]).
  - by eapply GETPackages_bodies.
  - by eapply GETPackagesSearch_bodies.
Qed.


(** X3.  When the sorted sequence fits on one page and page 1 is asked
    for, neither [splice] is run and the whole sorted sequence is sent. *)
Theorem single_page_is_answered_whole req hp w r w1 l :
  data_GetAllPackages w = (Ok r, w1) ->
  hp !! r = Some l ->
  query_page req = 1 ->
  (total_pages (Z.of_nat (length (listing_sorted req l))) paginated_amount = 1 ->
   response_bodies (trace (run (GETPackages req) hp w))
   = [POSPrune_view (listing_sorted req l)])
  /\ (total_pages (Z.of_nat (length (search_sorted req l))) paginated_amount = 1 ->
      response_bodies (trace (run (GETPackagesSearch req) hp w))
      = [POSPrune_view (search_sorted req l)]).
Proof.
  intros Hall Hr Hpage. split; intros Htotal.
  - erewrite GETPackages_bodies by done.
    unfold kept_on_page. by rewrite Hpage, Htotal.
  - erewrite GETPackagesSearch_bodies by done.
    unfold kept_on_page. by rewrite Hpage, Htotal.
Qed.

(** X4.  [GETPackagesSearch] changes no array that was in the store before
    the request, whatever the request and the answer of [data] are: it
    sorts and cuts only arrays it allocated itself. *)
Theorem GETPackagesSearch_leaves_store req hp w r' l' :
  hp !! r' = Some l' ->
  heap (run (GETPackagesSearch req) hp w) !! r' = Some l'.
Proof.
  intros Hr'.
  unfold run, GETPackagesSearch, bind, call. cbn [heap world trace].
  destruct (data_GetAllPackages w) as [[r|short content] w1].
  2:{ done. }
  unfold emit, collection_DeepCopy, collection_SearchWithinPackages,
    collection_Sort, collection_Direction,
    bind, emit, array_content, array_alloc, array_update, ret.
  cbn [heap world trace app s_page s_sort s_direction s_query].
  set (l := default [] (hp !! r)).
  rewrite lookup_insert_eq. cbn [default]. unfold id.
  set (r1 := fresh (dom hp)).
  set (r2 := fresh (dom (<[r1 := l]> hp))).
  set (hp2 := alter _ r2 (alter _ r2 _)).
  assert (is_Some (hp2 !! r2)) as [sorted Hr2].
  { subst hp2. rewrite !lookup_alter_eq, lookup_insert_eq. by eexists. }
  rewrite (prune_to_page_run r2 _ _ _ _ _ Hr2).
  unfold collection_POSPrune, bind, emit, array_content, array_alloc, ret,
    search_link_pages, search_page_post_increment.
  cbn [heap world trace app snd].
  assert (r1 <> r') as Hne1 by (by eapply fresh_ne).
  assert (r2 <> r') as Hne2.
  { eapply fresh_ne. by rewrite lookup_insert_ne. }
  assert ((<[r2 := kept_on_page (query_page req) paginated_amount sorted]> hp2)
            !! r' = Some l') as Hkeep.
  { rewrite lookup_insert_ne by done. subst hp2.
    by rewrite !lookup_alter_ne, !lookup_insert_ne. }
  rewrite lookup_insert_ne; [done|]. by eapply fresh_ne.
Qed.

End ListingExtras.

Section CoreExtras.
Context {W : Type} {C : Collaborators W}.
Implicit Types (req : Request) (hp : gmap Ref (list Package)) (w : W).

(** X5.  When the read from [data] fails, the listing, search, featured
    and detail handlers hand exactly that failure to [common.HandleError]
    and do nothing else: no array is allocated or changed, no [Link]
    header and no body is sent. *)
Theorem data_failure_is_forwarded req hp w short content w1 :
  (data_GetAllPackages w = (Fail short content, w1) ->
   run (GETPackages req) hp w
   = mkSt hp w1 [DataGetAllPackages; ConsoleLog "retreived all packages";
                 CommonHandleError short content]
   /\ run (GETPackagesSearch req) hp w
      = mkSt hp w1 [DataGetAllPackages; CommonHandleError short content])
  /\ (data_GetFeatured w = (Fail short content, w1) ->
      run (GETPackagesFeatured req) hp w
      = mkSt hp w1 [DataGetFeatured; CommonHandleError short content])
  /\ (data_GetPackageByName (decodeURIComponent (req_params_packageName req)) w
      = (Fail short content, w1) ->
      run (GETPackagesDetails req) hp w
      = mkSt hp w1
          [DataGetPackageByName (decodeURIComponent (req_params_packageName req));
           CommonHandleError short content]).
Proof.
  split; [|split].
  - intros Hall. unfold GETPackages, GETPackagesSearch. unfold_monad.
    by rewrite Hall.
  - intros Hfeat. unfold GETPackagesFeatured. unfold_monad. by rewrite Hfeat.
  - intros Hget. unfold GETPackagesDetails. unfold_monad. by rewrite Hget.
Qed.


Lemma tarball_written req hp w pack w1 ver :
  valid_semver (req_params_versionName req) = true ->
  req_params_versionName req <> EmptyString ->
  data_GetPackageByName (decodeURIComponent (req_params_packageName req)) w
    = (Ok pack, w1) ->
  versions pack !! req_params_versionName req = Some ver ->
  written_packages (trace (run (GETPackagesVersionTarball req) hp w))
  = [mkPackage (name pack) (downloads pack + 1) (star_gazers pack)
               (versions pack)].
Proof.
  intros Hsemver Hne Hget Hver.
  unfold GETPackagesVersionTarball, query_engine. rewrite Hsemver.
  cbn [truthy].
  replace (String.eqb (req_params_versionName req) EmptyString) with false
    by (symmetry; by apply String.eqb_neq).
  cbn [negb]. unfold_monad. rewrite Hget, Hver. cbn [versions]. rewrite Hver.
  match goal with
  | |- context [data_SetPackageByName ?n ?c w1] =>
    destruct (data_SetPackageByName n c w1) as [[?|? ?] ?]
  end; reflexivity.
Qed.

(** X7.  The callback of the uninstall handler, for any version name in
    the request: a package that cannot be read gives that failure and no
    write; otherwise the package is written back with its download counter
    lowered by one, and the answer is 201 when the write succeeded and the
    failure of the write when it did not. *)
Theorem uninstall_outcomes pname user hp w :
  let t := trace (run (POSTPackagesEventUninstall_onLogin pname user) hp w) in
  (forall short content w1,
      data_GetPackageByName pname w = (Fail short content, w1) ->
      t = [DataGetPackageByName pname; CommonHandleError short content])
  /\ (forall pack w1,
         data_GetPackageByName pname w = (Ok pack, w1) ->
         let lowered :=
           mkPackage (name pack) (downloads pack - 1) (star_gazers pack)
                     (versions pack) in
         t = [DataGetPackageByName pname; DataSetPackageByName pname lowered]
             ++ match (data_SetPackageByName pname lowered w1).1 with
                | Ok _ => [ResStatusJson 201 JOkTrue; LoggerHTTPLog]
                | Fail short content => [CommonHandleError short content]
                end).
Proof.
  intros t. subst t. unfold POSTPackagesEventUninstall_onLogin. unfold_monad.
  split.
  - intros short content w1 ->. reflexivity.
  - intros pack w1 ->. cbn zeta.
    destruct (data_SetPackageByName _ _ w1) as [[?|? ?] ?]; reflexivity.
Qed.


Lemma uninstall_written pname user hp w pack w1 :
  data_GetPackageByName pname w = (Ok pack, w1) ->
  written_packages
    (trace (run (POSTPackagesEventUninstall_onLogin pname user) hp w))
  = [mkPackage (name pack) (downloads pack - 1) (star_gazers pack)
               (versions pack)].
Proof.
  intros Hget. unfold POSTPackagesEventUninstall_onLogin. unfold_monad.
  rewrite Hget.
  match goal with
  | |- context [data_SetPackageByName ?n ?c w1] =>
    destruct (data_SetPackageByName n c w1) as [[?|? ?] ?]
  end; reflexivity.
Qed.

(** X9.  An uninstall event undoes a download: when the package the
    uninstall callback reads is the one a tarball request wrote, the package
    it writes is the one the tarball request had read. *)
Theorem uninstall_undoes_tarball req pname user hp w hp' w' pack w1 ver w2 w3 :
  pname = decodeURIComponent (req_params_packageName req) ->
  valid_semver (req_params_versionName req) = true ->
  req_params_versionName req <> EmptyString ->
  data_GetPackageByName pname w = (Ok pack, w1) ->
  versions pack !! req_params_versionName req = Some ver ->
  (forall written,
      written ∈ written_packages
                  (trace (run (GETPackagesVersionTarball req) hp w)) ->
      data_GetPackageByName pname w' = (Ok written, w2)) ->
  written_packages
    (trace (run (POSTPackagesEventUninstall_onLogin pname user) hp' w'))
  = [pack].
Proof.
  intros -> Hv Hne Hget Hver Hread.
  rewrite (tarball_written req hp w pack w1 ver Hv Hne Hget Hver) in Hread.
  specialize (Hread _ (list_elem_of_here _ _)).
  rewrite (uninstall_written _ user hp' w' _ _ Hread).
  cbn [downloads name star_gazers versions].
  replace (downloads pack + 1 - 1) with (downloads pack) by lia.
  by destruct pack.
Qed.
End CoreExtras.

Section Responds.
Context {W : Type} {C : Collaborators W}.

Lemma count_responses_app (t1 t2 : list Event) :
  count_responses (t1 ++ t2) = (count_responses t1 + count_responses t2)%nat.
Proof. unfold count_responses. by rewrite filter_app, length_app. Qed.

Lemma count_responses_cons (e : Event) (t : list Event) :
  count_responses (e :: t)
  = ((if is_response e then 1 else 0) + count_responses t)%nat.
Proof.
  unfold count_responses. rewrite filter_cons.
  destruct (is_response e); case_decide; done.
Qed.

Lemma responds_ret {A} (a : A) : responds (W:=W) 0 (ret a).
Proof. intros st. unfold ret. simpl. lia. Qed.

Lemma responds_bind {A B} (m : M W A) (k : A -> M W B) (a b n : nat) :
  responds a m -> (forall x, responds b (k x)) -> n = (a + b)%nat ->
  responds n (bind m k).
Proof.
  intros Hm Hk -> st. unfold bind.
  specialize (Hm st). destruct (m st) as [x st']. cbn [snd] in Hm.
  rewrite (Hk x st'), Hm. lia.
Qed.

Lemma responds_bind_quiet_head {A B} (m : M W A) (k : A -> M W B) (n : nat) :
  responds 0 m -> (forall x, responds n (k x)) -> responds n (bind m k).
Proof. intros Hm Hk. by eapply responds_bind. Qed.

Lemma responds_bind_quiet_tail {A B} (m : M W A) (k : A -> M W B) (n : nat) :
  responds n m -> (forall x, responds 0 (k x)) -> responds n (bind m k).
Proof. intros Hm Hk. eapply responds_bind; [done..|lia]. Qed.

Lemma responds_emit e :
  responds (W:=W) (if is_response e then 1 else 0) (emit e).
Proof.
  intros st. cbn [emit snd trace]. rewrite count_responses_app.
  unfold count_responses at 2. rewrite filter_cons, filter_nil.
  destruct (is_response e); case_decide; done.
Qed.

Lemma responds_call {A} e (f : W -> A * W) :
  responds (if is_response e then 1 else 0) (call e f).
Proof.
  intros st. unfold call. destruct (f (world st)) as [x w'].
  cbn [snd trace]. rewrite count_responses_app.
  unfold count_responses at 2. rewrite filter_cons, filter_nil.
  destruct (is_response e); case_decide; done.
Qed.

Lemma responds_when (b : bool) (m : M W unit) :
  responds 0 m -> responds 0 (when_ b m).
Proof. destruct b; [done | intros _; apply responds_ret]. Qed.

Lemma responds_array_content r : responds (W:=W) 0 (array_content r).
Proof. intros st. simpl. lia. Qed.

Lemma responds_array_length r : responds (W:=W) 0 (array_length r).
Proof. intros st. simpl. lia. Qed.

Lemma responds_array_update f r : responds (W:=W) 0 (array_update f r).
Proof. intros st. simpl. lia. Qed.

Lemma responds_array_alloc l : responds (W:=W) 0 (array_alloc l).
Proof. intros st. simpl. lia. Qed.

Lemma responds_run (h : M W unit) n hp w :
  responds n h -> count_responses (trace (run h hp w)) = n.
Proof. intros Hh. unfold run. by rewrite Hh. Qed.

End Responds.

Ltac responds_auto :=
  lazymatch goal with
  | |- responds _ (bind _ _) =>
    first
      [ apply responds_bind_quiet_head;
        [solve [responds_auto] | intros ?; responds_auto]
      | apply responds_bind_quiet_tail;
        [responds_auto | intros ?; solve [responds_auto]] ]
  | |- responds _ (match ?x with _ => _ end) => destruct x; responds_auto
  | |- responds _ (if ?b then _ else _) => destruct b; responds_auto
  | |- _ =>
    first
      [ apply responds_ret
      | apply responds_emit
      | apply responds_call
      | apply responds_when; responds_auto
      | apply responds_array_content
      | apply responds_array_length
      | apply responds_array_update
      | apply responds_array_alloc ]
  end.

Section OneResponse.
Context {W : Type} {C : Collaborators W}.
Implicit Types (req : Request) (hp : gmap Ref (list Package)) (w : W).

Ltac responds_handler :=
  unfold GETPackages, GETPackagesSearch, GETPackagesFeatured,
    POSTPackagesEventUninstall_onLogin,
    common_HandleError, common_AuthFail, call_VerifyAuth,
    collection_DeepCopy, collection_DeepCopy_object, collection_Sort,
    collection_Direction, collection_SearchWithinPackages,
    collection_POSPrune, collection_POFPrune, collection_EngineFilter,
    prune_to_page, array_splice;
  responds_auto.

Lemma GETPackages_responds req : responds 1 (GETPackages req).
Proof. responds_handler. Qed.

Lemma GETPackagesSearch_responds req : responds 1 (GETPackagesSearch req).
Proof. responds_handler. Qed.

Lemma GETPackagesFeatured_responds req : responds 1 (GETPackagesFeatured req).
Proof. responds_handler. Qed.

Lemma POSTPackagesEventUninstall_onLogin_responds pname user :
  responds 1 (POSTPackagesEventUninstall_onLogin pname user).
Proof. responds_handler. Qed.

End OneResponse.

(** ** Properties of the publishing and deleting handlers *)

Ltac hunfold :=
  cbv beta iota zeta delta
    [hrun hbind hret hemit hcall handle_error verify_auth get_package
     run_world run_trace fst snd app].

Ltac in_trace H :=
  repeat first
    [ apply elem_of_nil in H; contradiction
    | apply elem_of_cons in H as [H|H]; [try discriminate H|] ].

Ltac no_event :=
  let Hin := fresh "Hin" in
  split; [intros ? Hin | intros ? ? Hin]; in_trace Hin.

Section PublishFacts.
Context {W : Type} {P : PublishCollaborators W}.
Implicit Types (req : Request) (w : W).

Lemma split_on_no_sep sep (s : string) :
  (forall c, c ∈ String.list_ascii_of_string s -> c <> sep) ->
  split_on sep s = [s].
Proof.
  induction s as [|c s IH]; intros Hno; [done|].
  cbn [split_on].
  replace (Ascii.eqb c sep) with false.
  2:{ symmetry. apply Ascii.eqb_neq, Hno. cbn. apply list_elem_of_here. }
  rewrite IH; [done|].
  intros c' Hc'. apply Hno. cbn. by apply list_elem_of_further.
Qed.

Lemma split_on_prefix sep (owner rest : string) :
  (forall c, c ∈ String.list_ascii_of_string owner -> c <> sep) ->
  split_on sep (owner +:+ String sep rest) = owner :: split_on sep rest.
Proof.
  induction owner as [|c owner IH]; intros Hno.
  - simpl. by rewrite Ascii.eqb_refl.
  - simpl.
    replace (Ascii.eqb c sep) with false.
    2:{ symmetry. apply Ascii.eqb_neq, Hno. cbn. apply list_elem_of_here. }
    rewrite IH; [done|].
    intros c' Hc'. apply Hno. cbn. by apply list_elem_of_further.
Qed.

(** X13.  For a repository [owner/name], the existence check of
    [POSTPackages] looks up the pointer of [name] alone, so repositories of
    different owners with the same name share the check. *)
Theorem POSTPackages_looks_up_the_repo_name req w u w1 owner n :
  users_VerifyAuth (req_authorization req) w = (Ok u, w1) ->
  query_repo req = owner +:+ String slash n ->
  (forall c, c ∈ String.list_ascii_of_string owner -> c <> slash) ->
  (forall c, c ∈ String.list_ascii_of_string n -> c <> slash) ->
  run_trace (hrun (POSTPackages req) w) !! 1%nat
  = Some (DataGetPackagePointerByName (Some n)).
Proof.
  intros Hauth Hrepo Howner Hn.
  assert (repo_name (query_repo req) = Some n) as Hname.
  { unfold repo_name. rewrite Hrepo, split_on_prefix by done.
    by rewrite split_on_no_sep. }
  unfold POSTPackages. hunfold. rewrite Hauth, Hname.
  replace (String.eqb (query_repo req) EmptyString) with false.
  2:{ symmetry. apply String.eqb_neq. rewrite Hrepo.
      destruct owner; discriminate. }
  destruct (data_GetPackagePointerByName (Some n) w1) as [[?|short ?] w2];
    [done|].
  destruct (negb _); [done|].
  destruct (git_Ownership _ _ w2) as [[?|? ?] w3]; [|done].
  destruct (git_CreatePackage _ w3) as [[created|? ?] w4]; [|done].
  destruct (data_NewPackage _ w4) as [[?|? ?] w5]; [|done].
  by destruct (data_GetPackageByName _ w5) as [[?|? ?] w6].
Qed.

(** X14.  [POSTPackages] calls [data.NewPackage] only when the credentials
    were accepted, the repository is not the empty string, the pointer
    lookup failed with Not Found, the user owns the repository and
    [git.CreatePackage] returned the package that is stored.  A package
    body is sent only with status 201, after the store accepted the new
    package and it was read back; the body is the full prune of what was
    read. *)
Theorem POSTPackages_publishes_only_after_all_checks req w :
  let auth := req_authorization req in
  let repository := query_repo req in
  let t := run_trace (hrun (POSTPackages req) w) in
  (forall p,
      DataNewPackage p ∈ t ->
      repository <> EmptyString
      /\ exists u w1 missing w2 x w3 w4,
          users_VerifyAuth auth w = (Ok u, w1)
          /\ data_GetPackagePointerByName (repo_name repository) w1
             = (Fail "Not Found" missing, w2)
          /\ git_Ownership u repository w2 = (Ok x, w3)
          /\ git_CreatePackage repository w3 = (Ok p, w4))
  /\ (forall code body,
         Core (ResStatusJson code body) ∈ t ->
         code = 201
         /\ exists p stored w5 y w6 w7,
             DataNewPackage p ∈ t
             /\ data_NewPackage p w5 = (Ok y, w6)
             /\ data_GetPackageByName (name p) w6 = (Ok stored, w7)
             /\ body = JPackage (POFPrune_view (W := W) stored)).
Proof.
  intros auth repository t. subst t. unfold POSTPackages.
  fold auth repository. hunfold.
  destruct (users_VerifyAuth auth w) as [[u|? ?] w1] eqn:Hauth.
  2:{ no_event. }
  destruct (String.eqb repository EmptyString) eqn:Hrepo.
  { no_event. }
  apply String.eqb_neq in Hrepo.
  destruct (data_GetPackagePointerByName _ w1) as [[?|short missing] w2] eqn:Hptr.
  { no_event. }
  destruct (String.eqb short "Not Found") eqn:Hshort; cbn [negb].
  2:{ no_event. }
  apply String.eqb_eq in Hshort. subst short.
  destruct (git_Ownership u repository w2) as [[x|? ?] w3] eqn:Hown.
  2:{ no_event. }
  destruct (git_CreatePackage repository w3) as [[created|? ?] w4] eqn:Hcreate.
  2:{ no_event. }
  destruct (data_NewPackage created w4) as [[y|? ?] w5] eqn:Hnew.
  2:{ split.
      - intros p Hin. split; [done|]. in_trace Hin. injection Hin as ->.
        by exists u, w1, missing, w2, x, w3, w4.
      - intros code body Hin. in_trace Hin. }
  destruct (data_GetPackageByName (name created) w5) as [[stored|? ?] w6] eqn:Hget.
  2:{ split.
      - intros p Hin. split; [done|]. in_trace Hin. injection Hin as ->.
        by exists u, w1, missing, w2, x, w3, w4.
      - intros code body Hin. in_trace Hin. }
  split.
  - intros p Hin. split; [done|]. in_trace Hin. injection Hin as ->.
    by exists u, w1, missing, w2, x, w3, w4.
  - intros code body Hin. in_trace Hin. injection Hin as -> ->.
    split; [done|]. exists created, stored, w4, y, w5, w6.
    split; [|done]. do 4 apply list_elem_of_further. apply list_elem_of_here.
Qed.

(** X15.  For an authenticated user and a non-empty repository: when the
    pointer lookup finds the package, [POSTPackages] answers that the
    package exists and calls neither [git] nor [data.NewPackage]; when the
    lookup fails with anything but Not Found, that failure is the
    answer. *)
Theorem POSTPackages_refuses_an_existing_package req w u w1 :
  let auth := req_authorization req in
  let repository := query_repo req in
  let t := run_trace (hrun (POSTPackages req) w) in
  users_VerifyAuth auth w = (Ok u, w1) ->
  repository <> EmptyString ->
  (forall pointer w2,
      data_GetPackagePointerByName (repo_name repository) w1 = (Ok pointer, w2) ->
      t = [Core (UsersVerifyAuth auth);
           DataGetPackagePointerByName (repo_name repository);
           ErrorPublishPackageExists; Core LoggerHTTPLog])
  /\ (forall short content w2,
         data_GetPackagePointerByName (repo_name repository) w1
         = (Fail short content, w2) ->
         short <> "Not Found"%string ->
         t = [Core (UsersVerifyAuth auth);
              DataGetPackagePointerByName (repo_name repository);
              Core (CommonHandleError short content)]).
Proof.
  intros auth repository t Hauth Hrepo. subst t. unfold POSTPackages.
  fold auth repository. hunfold. rewrite Hauth.
  replace (String.eqb repository EmptyString) with false
    by (symmetry; by apply String.eqb_neq).
  split.
  - intros pointer w2 ->. reflexivity.
  - intros short content w2 -> Hshort.
    replace (String.eqb short "Not Found") with false
      by (symmetry; by apply String.eqb_neq).
    reflexivity.
Qed.

(** X16.  [DELETEPackagesName] calls [data.RemovePackageByName] only for
    the package named in the request and only after the credentials were
    accepted and [git.Ownership] succeeded; it answers 204 only when the
    removal succeeded. *)
Theorem DELETEPackagesName_removes_only_for_the_owner req w :
  let auth := req_authorization req in
  let pname := decodeURIComponent (W := W) (req_params_packageName req) in
  let t := run_trace (hrun (DELETEPackagesName req) w) in
  (forall n,
      DataRemovePackageByName n ∈ t ->
      n = pname
      /\ exists u w1 x w2,
          users_VerifyAuth auth w = (Ok u, w1)
          /\ git_Ownership u pname w1 = (Ok x, w2))
  /\ (forall code message,
         ResStatusJsonMessage code message ∈ t ->
         code = 204
         /\ exists w2 y w3,
             DataRemovePackageByName pname ∈ t
             /\ data_RemovePackageByName pname w2 = (Ok y, w3)).
Proof.
  intros auth pname t. subst t. unfold DELETEPackagesName.
  fold auth pname. hunfold.
  destruct (users_VerifyAuth auth w) as [[u|? ?] w1] eqn:Hauth; [|no_event].
  destruct (git_Ownership u pname w1) as [[x|? ?] w2] eqn:Hown; [|no_event].
  destruct (data_RemovePackageByName pname w2) as [[y|? ?] w3] eqn:Hrm.
  - split.
    + intros n Hin. in_trace Hin. injection Hin as ->.
      split; [done|]. by exists u, w1, x, w2.
    + intros code message Hin. in_trace Hin. injection Hin as -> ->.
      split; [done|]. exists w2, y, w3. split; [|done].
      do 2 apply list_elem_of_further. apply list_elem_of_here.
  - split.
    + intros n Hin. in_trace Hin. injection Hin as ->.
      split; [done|]. by exists u, w1, x, w2.
    + intros code message Hin. in_trace Hin.
Qed.

(** X17.  The callback of [DELETEPackagesStar]: when the star was removed
    from the package and removing it from the user fails, the next call
    stars the package again, and a server error follows; 201 is sent only
    when both removals succeeded. *)
Theorem unstar_ok_only_when_removed_twice pname u w :
  let t := run_trace (hrun (DELETEPackagesStar_onLogin pname u) w) in
  (forall unstarred w1 short unstar_content w2,
      data_UnStarPackageByName pname (user_name u) w = (Ok unstarred, w1) ->
      users_RemoveUserStar pname (user_name u) w1
      = (Fail short unstar_content, w2) ->
      exists rest,
        t = [Core (DataUnStarPackageByName pname (user_name u));
             UsersRemoveUserStar pname (user_name u);
             Core (DataStarPackageByName pname (user_name u))] ++ rest
        /\ (rest = [Core (CommonServerError unstar_content)]
            \/ exists restar_content,
                rest = [Core ErrorServerErrorJSON; Core LoggerHTTPLog;
                        Core (LoggerErrorLog restar_failure_message);
                        Core (LoggerErrorLog unstar_content);
                        Core (LoggerErrorLog restar_content)]))
  /\ (forall code,
         ResStatusSend code ∈ t ->
         code = 201
         /\ exists unstarred w1 x w2,
             data_UnStarPackageByName pname (user_name u) w = (Ok unstarred, w1)
             /\ users_RemoveUserStar pname (user_name u) w1 = (Ok x, w2)).
Proof.
  intros t. subst t. unfold DELETEPackagesStar_onLogin. hunfold. split.
  - intros unstarred w1 short unstar_content w2 -> ->.
    destruct (data_StarPackageByName pname (user_name u) w2)
      as [[?|? restar_content] ?]; eexists; (split; [reflexivity|]).
    + by left.
    + right. by exists restar_content.
  - intros code Hin.
    destruct (data_UnStarPackageByName pname (user_name u) w)
      as [[unstarred|? ?] w1] eqn:Hunstar; [|in_trace Hin].
    destruct (users_RemoveUserStar pname (user_name u) w1)
      as [[x|? ?] w2] eqn:Hremove.
    + in_trace Hin. injection Hin as ->. split; [done|].
      by exists unstarred, w1, x, w2.
    + destruct (data_StarPackageByName pname (user_name u) w2)
        as [[?|? ?] ?]; in_trace Hin.
Qed.


(** X19.  [DELETEPackageVersion], for the owner of a package that has no
    truthy key of the given version name: [common.NotFound] is called, the
    handler does not return, the package is still written back, and the
    request is answered a second time. *)
Theorem DELETEPackageVersion_answers_twice_for_a_missing_key
    req w u w1 x w2 pack w3 :
  let auth := req_authorization req in
  let pname := decodeURIComponent (W := W) (req_params_packageName req) in
  let v := req_params_versionName req in
  users_VerifyAuth auth w = (Ok u, w1) ->
  git_Ownership u pname w1 = (Ok x, w2) ->
  data_GetPackageByName pname w2 = (Ok pack, w3) ->
  own_key_truthy pack v = false ->
  exists final,
    run_trace (hrun (DELETEPackageVersion req) w)
    = [Core (UsersVerifyAuth auth); GitOwnership u pname;
       Core (DataGetPackageByName pname); Core CommonNotFound;
       Core (DataSetPackageByName pname (delete_key pack v)); final]
    /\ (final = CommonHandleErrorOfWrite \/ final = ResStatusSend 204).
Proof.
  intros auth pname v Hauth Hown Hget Hkey. unfold DELETEPackageVersion.
  fold auth pname v. hunfold. rewrite Hauth, Hown, Hget, Hkey. cbn [negb].
  hunfold.
  destruct (data_SetPackageByName pname (delete_key pack v) w3) as [write w4].
  destruct (negb (unawaited_ok write)); eexists; (split; [reflexivity|]); auto.
Qed.

(** X20.  When [ok] cannot be read off a call that is not awaited,
    [DELETEPackageVersion] never sends its 204: the write is started and its
    pending result is handed to [common.HandleError]. *)
Theorem DELETEPackageVersion_never_confirms_a_pending_write req w :
  (forall write, unawaited_ok write = false) ->
  forall code, ResStatusSend code ∉ run_trace (hrun (DELETEPackageVersion req) w).
Proof.
  intros Hpending code Hin. revert Hin.
  unfold DELETEPackageVersion. hunfold.
  destruct (users_VerifyAuth _ w) as [[u|? ?] w1]; [|intros Hin; in_trace Hin].
  destruct (git_Ownership u _ w1) as [[x|? ?] w2]; [|intros Hin; in_trace Hin].
  destruct (data_GetPackageByName _ w2) as [[pack|? ?] w3];
    [|intros Hin; in_trace Hin].
  destruct (negb (own_key_truthy pack _)); hunfold;
    match goal with
    | |- context [data_SetPackageByName ?n ?c w3] =>
      destruct (data_SetPackageByName n c w3) as [write w4]
    end; rewrite Hpending; cbn [negb]; intros Hin; in_trace Hin.
Qed.

Lemma count_handler_responses_cons (e : HandlerEvent) (t : list HandlerEvent) :
  count_handler_responses (e :: t)
  = ((if is_handler_response e then 1 else 0) + count_handler_responses t)%nat.
Proof.
  unfold count_handler_responses. rewrite filter_cons.
  destruct (is_handler_response e); case_decide; done.
Qed.

Ltac count_now :=
  rewrite ?count_handler_responses_cons; reflexivity.

(** X21.  Every run of [POSTPackages] and of the callbacks of
    [DELETEPackagesStar] and [POSTPackagesVersion] answers the request
    exactly once, whatever the collaborators return.  [POSTPackages] decodes
    no package name and the callbacks are given the decoded one. *)
Theorem publish_handlers_answer_once req pname u w :
  count_handler_responses (run_trace (hrun (POSTPackages req) w)) = 1%nat
  /\ count_handler_responses
       (run_trace (hrun (DELETEPackagesStar_onLogin pname u) w)) = 1%nat
  /\ count_handler_responses
       (run_trace (hrun (POSTPackagesVersion_onLogin pname u) w)) = 1%nat.
Proof.
  repeat split.
  - unfold POSTPackages. hunfold.
    destruct (users_VerifyAuth _ w) as [[v|? ?] w1]; [|count_now].
    destruct (String.eqb _ _); [count_now|].
    destruct (data_GetPackagePointerByName _ w1) as [[?|short ?] w2];
      [count_now|].
    destruct (negb _); [count_now|].
    destruct (git_Ownership _ _ w2) as [[?|? ?] w3]; [|count_now].
    destruct (git_CreatePackage _ w3) as [[created|? ?] w4]; [|count_now].
    destruct (data_NewPackage _ w4) as [[?|? ?] w5]; [|count_now].
    destruct (data_GetPackageByName _ w5) as [[?|? ?] w6]; count_now.
  - unfold DELETEPackagesStar_onLogin. hunfold.
    destruct (data_UnStarPackageByName _ _ w) as [[?|? ?] w1]; [|count_now].
    destruct (users_RemoveUserStar _ _ w1) as [[?|? ?] w2]; [count_now|].
    destruct (data_StarPackageByName _ _ w2) as [[?|? ?] w3]; count_now.
  - unfold POSTPackagesVersion_onLogin. hunfold.
    destruct (git_Ownership _ _ w) as [[?|? ?] w1]; count_now.
Qed.
End PublishFacts.

(** ** Composition of listing requests, and the witnesses *)

Section ListingComposition.
Context {W : Type} {C : Collaborators W}.
Implicit Types (req : Request) (hp : gmap Ref (list Package)) (w : W).

(** X11.  The [Link] header of a successful listing or search request:
    the self link and the next link both carry the requested page, the last
    link carries the page count of the whole sorted sequence, taken before
    the array is cut, and all three repeat the sort and order parameters. *)
Theorem Link_header_of_a_listing req hp w r w1 l :
  data_GetAllPackages w = (Ok r, w1) ->
  hp !! r = Some l ->
  link_headers (trace (run (GETPackages req) hp w))
  = [format_Link
       (mkLinkPages (query_page req)
          (total_pages (Z.of_nat (length (listing_sorted req l))) paginated_amount)
          (query_page req))
       (query_sort req None) (query_dir req)]
  /\ link_headers (trace (run (GETPackagesSearch req) hp w))
     = [format_search_Link
          (mkLinkPages (query_page req)
             (total_pages (Z.of_nat (length (search_sorted req l)))
                paginated_amount)
             (query_page req))
          (query_query req) (query_sort req (Some "relevance"%string))
          (query_dir req)].
Proof.
  intros Hall Hr. split.
  - destruct (GETPackages_run req hp w r w1 l Hall Hr) as (_ & _ & ->).
    reflexivity.
  - destruct (GETPackagesSearch_run req hp w r w1 l Hall Hr)
      as (_ & _ & r1 & r2 & ->).
    reflexivity.
Qed.

(** X12.  After a successful [GETPackages] the array returned by
    [data.GetAllPackages] holds exactly the page that was sent, before
    pruning; a second listing request that gets the same array sorts and
    pages those items only. *)
Theorem second_listing_pages_the_first_page req req' hp w r w1 w2 l :
  data_GetAllPackages w = (Ok r, w1) ->
  data_GetAllPackages w1 = (Ok r, w2) ->
  hp !! r = Some l ->
  let first := run (GETPackages req) hp w in
  let sent :=
    kept_on_page (query_page req) paginated_amount (listing_sorted req l) in
  heap first !! r = Some sent
  /\ response_bodies (trace (run (GETPackages req') (heap first) (world first)))
     = [POSPrune_view
          (kept_on_page (query_page req') paginated_amount
             (listing_sorted req' sent))].
Proof.
  intros Hall Hall' Hr first sent.
  destruct (GETPackages_run req hp w r w1 l Hall Hr) as (Hcache & Hworld & _).
  fold first in Hcache, Hworld. split; [exact Hcache|].
  rewrite Hworld. by erewrite GETPackages_bodies.
Qed.

End ListingComposition.

(** ** The further properties at concrete requests *)

Lemma listing_pages_select_from_sorted_witness :
  exists kept,
    kept `sublist_of` Mem.seven_sorted
    /\ Mem.listing_bodies Mem.seven "2" = [kept].
Proof.
  destruct (listing_pages_select_from_sorted (C := Mem.collaborators)
              (Mem.listing_request "2") {[ 1%positive := Mem.seven ]}
              (Mem.world_of ∅ true) 1%positive (Mem.world_of ∅ true)
              Mem.seven eq_refl (lookup_singleton_eq _ _)) as [Hlisting _].
  exact Hlisting.
Defined.


Lemma single_page_is_answered_whole_witness :
  Mem.listing_bodies (take 3 Mem.seven) "1"
  = [[Mem.pkg "a" 70; Mem.pkg "c" 50; Mem.pkg "f" 20]]
  /\ Mem.search_bodies (take 3 Mem.seven) "1"
     = [[Mem.pkg "a" 70; Mem.pkg "c" 50; Mem.pkg "f" 20]].
Proof.
  destruct (single_page_is_answered_whole (C := Mem.collaborators)
              (Mem.listing_request "1") {[ 1%positive := take 3 Mem.seven ]}
              (Mem.world_of ∅ true) 1%positive (Mem.world_of ∅ true)
              (take 3 Mem.seven) eq_refl (lookup_singleton_eq _ _) eq_refl)
    as [Hlisting Hsearch].
  split; [apply Hlisting | apply Hsearch]; reflexivity.
Defined.

Lemma GETPackagesSearch_leaves_store_witness :
  Mem.cache_after_search Mem.ten "3" = Some Mem.ten.
Proof.
  apply (GETPackagesSearch_leaves_store (C := Mem.collaborators)
           (Mem.listing_request "3") {[ 1%positive := Mem.ten ]}
           (Mem.world_of ∅ true) 1%positive Mem.ten).
  apply lookup_singleton_eq.
Defined.

Lemma data_failure_is_forwarded_witness :
  run (GETPackages (Mem.listing_request "1")) ∅ MemPublish.broken_catalog
  = mkSt ∅ MemPublish.broken_catalog
      [DataGetAllPackages; ConsoleLog "retreived all packages";
       CommonHandleError "Server Error" "catalog unreadable"]
  /\ run (GETPackagesSearch (Mem.listing_request "1")) ∅
         MemPublish.broken_catalog
     = mkSt ∅ MemPublish.broken_catalog
         [DataGetAllPackages;
          CommonHandleError "Server Error" "catalog unreadable"].
Proof.
  destruct (data_failure_is_forwarded (C := Mem.collaborators)
              (Mem.listing_request "1") ∅ MemPublish.broken_catalog
              "Server Error" "catalog unreadable" MemPublish.broken_catalog)
    as [Hlisting _].
  apply Hlisting. reflexivity.
Defined.


Lemma uninstall_outcomes_witness :
  trace (run (POSTPackagesEventUninstall_onLogin "a" (Ok (mkUser "alice")))
             ∅ (Mem.world_a 5 false true true))
  = [DataGetPackageByName "a"; DataSetPackageByName "a" (Mem.pkg "a" 4);
     CommonHandleError "Server Error" "write failed"].
Proof.
  destruct (uninstall_outcomes (C := Mem.collaborators) "a"
              (Ok (mkUser "alice")) ∅ (Mem.world_a 5 false true true))
    as [_ Hfound].
  apply (Hfound (Mem.pkg "a" 5) (Mem.world_a 5 false true true)).
  reflexivity.
Defined.


Lemma uninstall_undoes_tarball_witness :
  written_packages
    (trace (run (POSTPackagesEventUninstall_onLogin "a" (Ok (mkUser "alice")))
                ∅ (Mem.world_a 6 true true true)))
  = [Mem.pkg "a" 5].
Proof.
  apply (uninstall_undoes_tarball (C := Mem.collaborators)
           (Mem.package_request None "a" "1.0.0") "a" (Ok (mkUser "alice"))
           ∅ (Mem.world_a 5 true true true) ∅ (Mem.world_a 6 true true true)
           (Mem.pkg "a" 5) (Mem.world_a 5 true true true)
           (mkVersion "https://tarballs/a") (Mem.world_a 6 true true true)
           (Mem.world_a 6 true true true));
    [reflexivity | reflexivity | discriminate | reflexivity | reflexivity |].
  intros written Hin.
  assert (written_packages
            (trace (run (GETPackagesVersionTarball
                           (Mem.package_request None "a" "1.0.0"))
                        ∅ (Mem.world_a 5 true true true)))
          = [Mem.pkg "a" 6]) as Hwritten by (vm_compute; reflexivity).
  rewrite Hwritten in Hin. apply list_elem_of_singleton in Hin as ->.
  reflexivity.
Defined.

Lemma Link_header_of_a_listing_witness :
  Mem.listing_links Mem.ten "2"
  = [format_Link (C := Mem.collaborators) (mkLinkPages 2 4 2)
       "downloads" "desc"]
  /\ Mem.search_links Mem.ten "2"
     = [format_search_Link (C := Mem.collaborators) (mkLinkPages 2 4 2)
          EmptyString "downloads" "desc"].
Proof.
  apply (Link_header_of_a_listing (C := Mem.collaborators)
           (Mem.listing_request "2") {[ 1%positive := Mem.ten ]}
           (Mem.world_of ∅ true) 1%positive (Mem.world_of ∅ true) Mem.ten);
    [reflexivity | apply lookup_singleton_eq].
Defined.

Lemma second_listing_pages_the_first_page_witness :
  Mem.cache_after_listing Mem.seven "2" = Some [Mem.pkg "g" 10]
  /\ response_bodies
       (trace (run (GETPackages (Mem.listing_request "1"))
                   (heap (Mem.listing_run Mem.seven "2"))
                   (world (Mem.listing_run Mem.seven "2"))))
     = [[Mem.pkg "g" 10]].
Proof.
  apply (second_listing_pages_the_first_page (C := Mem.collaborators)
           (Mem.listing_request "2") (Mem.listing_request "1")
           {[ 1%positive := Mem.seven ]} (Mem.world_of ∅ true) 1%positive
           (Mem.world_of ∅ true) (Mem.world_of ∅ true) Mem.seven);
    [reflexivity | reflexivity | apply lookup_singleton_eq].
Defined.

Lemma POSTPackages_looks_up_the_repo_name_witness :
  run_trace (hrun (POSTPackages
                     (MemPublish.publish_request (Some "secret"%string)
                                                 "alice/a"))
                  (Mem.world_of ∅ true)) !! 1%nat
  = Some (DataGetPackagePointerByName (Some "a"%string)).
Proof.
  apply (POSTPackages_looks_up_the_repo_name (P := MemPublish.collaborators)
           (MemPublish.publish_request (Some "secret"%string) "alice/a")
           (Mem.world_of ∅ true) (mkUser "alice") (Mem.world_of ∅ true)
           "alice" "a");
    [reflexivity | reflexivity | |];
    intros c Hin; cbn in Hin;
    repeat (apply elem_of_cons in Hin as [->|Hin]; [discriminate|]);
    by apply elem_of_nil in Hin.
Defined.

Lemma POSTPackages_publishes_only_after_all_checks_witness :
  DataNewPackage (Mem.pkg "a" 0)
    ∈ run_trace (hrun (POSTPackages
                         (MemPublish.publish_request (Some "secret"%string)
                                                     "alice/a"))
                      (Mem.world_of ∅ true))
  /\ exists u w1 missing w2 x w3 w4,
       Mem.VerifyAuth (Some "secret"%string) (Mem.world_of ∅ true) = (Ok u, w1)
       /\ MemPublish.GetPackagePointerByName (repo_name "alice/a") w1
          = (Fail "Not Found" missing, w2)
       /\ MemPublish.Ownership u "alice/a" w2 = (Ok x, w3)
       /\ MemPublish.CreatePackage "alice/a" w3 = (Ok (Mem.pkg "a" 0), w4).
Proof.
  assert (DataNewPackage (Mem.pkg "a" 0)
            ∈ run_trace (hrun (POSTPackages
                                 (MemPublish.publish_request
                                    (Some "secret"%string) "alice/a"))
                              (Mem.world_of ∅ true))) as Hin.
  { do 4 apply list_elem_of_further. apply list_elem_of_here. }
  split; [exact Hin|].
  destruct (POSTPackages_publishes_only_after_all_checks
              (P := MemPublish.collaborators)
              (MemPublish.publish_request (Some "secret"%string) "alice/a")
              (Mem.world_of ∅ true)) as [Hcreated _].
  exact (proj2 (Hcreated (Mem.pkg "a" 0) Hin)).
Defined.

Lemma POSTPackages_refuses_an_existing_package_witness :
  run_trace (hrun (POSTPackages
                     (MemPublish.publish_request (Some "secret"%string)
                                                 "alice/a"))
                  (Mem.world_a 0 true true true))
  = [Core (UsersVerifyAuth (Some "secret"%string));
     DataGetPackagePointerByName (Some "a"%string);
     ErrorPublishPackageExists; Core LoggerHTTPLog].
Proof.
  destruct (POSTPackages_refuses_an_existing_package
              (P := MemPublish.collaborators)
              (MemPublish.publish_request (Some "secret"%string) "alice/a")
              (Mem.world_a 0 true true true) (mkUser "alice")
              (Mem.world_a 0 true true true) eq_refl) as [Hexists _];
    [discriminate|].
  apply (Hexists "a"%string (Mem.world_a 0 true true true)). reflexivity.
Defined.

Lemma DELETEPackagesName_removes_only_for_the_owner_witness :
  DataRemovePackageByName "a"
    ∈ run_trace (hrun (DELETEPackagesName
                         (Mem.package_request (Some "secret"%string) "a" "1.0.0"))
                      (Mem.world_a 0 true true true))
  /\ exists u w1 x w2,
       Mem.VerifyAuth (Some "secret"%string) (Mem.world_a 0 true true true)
       = (Ok u, w1)
       /\ MemPublish.Ownership u "a" w1 = (Ok x, w2).
Proof.
  assert (DataRemovePackageByName "a"
            ∈ run_trace (hrun (DELETEPackagesName
                                 (Mem.package_request (Some "secret"%string)
                                                      "a" "1.0.0"))
                              (Mem.world_a 0 true true true))) as Hin.
  { do 2 apply list_elem_of_further. apply list_elem_of_here. }
  split; [exact Hin|].
  destruct (DELETEPackagesName_removes_only_for_the_owner
              (P := MemPublish.collaborators)
              (Mem.package_request (Some "secret"%string) "a" "1.0.0")
              (Mem.world_a 0 true true true)) as [Hremoved _].
  exact (proj2 (Hremoved "a"%string Hin)).
Defined.

Lemma unstar_ok_only_when_removed_twice_witness :
  exists rest,
    run_trace (hrun (DELETEPackagesStar_onLogin "a" (mkUser "alice"))
                    (Mem.world_a 0 true false true))
    = [Core (DataUnStarPackageByName "a" "alice");
       UsersRemoveUserStar "a" "alice";
       Core (DataStarPackageByName "a" "alice")] ++ rest
    /\ (rest = [Core (CommonServerError "user unstar failed")]
        \/ exists restar_content,
            rest = [Core ErrorServerErrorJSON; Core LoggerHTTPLog;
                    Core (LoggerErrorLog restar_failure_message);
                    Core (LoggerErrorLog "user unstar failed");
                    Core (LoggerErrorLog restar_content)]).
Proof.
  destruct (unstar_ok_only_when_removed_twice (P := MemPublish.collaborators)
              "a" (mkUser "alice") (Mem.world_a 0 true false true))
    as [Hrestar _].
  eapply Hrestar; reflexivity.
Defined.


Lemma DELETEPackageVersion_answers_twice_for_a_missing_key_witness :
  exists final,
    run_trace (hrun (DELETEPackageVersion
                       (Mem.package_request (Some "secret"%string) "a" "9.9.9"))
                    (Mem.world_a 0 true true true))
    = [Core (UsersVerifyAuth (Some "secret"%string)); GitOwnership (mkUser "alice") "a";
       Core (DataGetPackageByName "a"); Core CommonNotFound;
       Core (DataSetPackageByName "a" (Mem.pkg "a" 0)); final]
    /\ (final = CommonHandleErrorOfWrite \/ final = ResStatusSend 204).
Proof.
  apply (DELETEPackageVersion_answers_twice_for_a_missing_key
           (P := MemPublish.collaborators)
           (Mem.package_request (Some "secret"%string) "a" "9.9.9")
           (Mem.world_a 0 true true true) (mkUser "alice")
           (Mem.world_a 0 true true true) tt (Mem.world_a 0 true true true)
           (Mem.pkg "a" 0) (Mem.world_a 0 true true true));
    reflexivity.
Defined.

Lemma DELETEPackageVersion_never_confirms_a_pending_write_witness :
  ResStatusSend 204
    ∉ run_trace (hrun (DELETEPackageVersion
                         (Mem.package_request (Some "secret"%string) "a" "1.0.0"))
                      (Mem.world_a 0 true true true)).
Proof.
  apply (DELETEPackageVersion_never_confirms_a_pending_write
           (P := MemPublish.collaborators)
           (Mem.package_request (Some "secret"%string) "a" "1.0.0")
           (Mem.world_a 0 true true true)).
  intros write. reflexivity.
Defined.

Section Featured.
Context {W : Type} {C : Collaborators W}.
Implicit Types (req : Request) (hp : gmap Ref (list Package)) (w : W).

(** X22.  A successful [GETPackagesFeatured] sends, with status 200 and
    without a [Link] header, the short prune of the whole featured array,
    made from a copy: every array that was in the store keeps its
    content. *)
Theorem GETPackagesFeatured_sends_the_pruned_copy req hp w r w1 l :
  data_GetFeatured w = (Ok r, w1) ->
  hp !! r = Some l ->
  (exists copy,
      trace (run (GETPackagesFeatured req) hp w)
      = [DataGetFeatured; CollectionDeepCopy; CollectionPOSPrune copy;
         ResStatusJson 200 (JPackages (POSPrune_view l))])
  /\ (forall r' l',
         hp !! r' = Some l' ->
         heap (run (GETPackagesFeatured req) hp w) !! r' = Some l').
Proof.
  intros Hfeatured Hr.
  unfold run, GETPackagesFeatured, bind, call. cbn [heap world trace].
  rewrite Hfeatured.
  unfold emit, collection_DeepCopy, collection_POSPrune, bind, emit,
    array_content, array_alloc, ret.
  cbn [heap world trace app snd]. rewrite Hr. cbn [default]. unfold id.
  rewrite lookup_insert_eq. cbn [default]. unfold id.
  rewrite lookup_insert_eq. cbn [default].
  split; [by eexists|].
  intros r' l' Hr'.
  rewrite !lookup_insert_ne; [done|by eapply fresh_ne|].
  eapply fresh_ne. rewrite lookup_insert_ne; [done|by eapply fresh_ne].
Qed.

End Featured.

Lemma GETPackagesFeatured_sends_the_pruned_copy_witness :
  (exists copy,
      trace (run (GETPackagesFeatured (Mem.listing_request "1"))
                 {[ 1%positive := Mem.seven ]} (Mem.world_of ∅ true))
      = [DataGetFeatured; CollectionDeepCopy; CollectionPOSPrune copy;
         ResStatusJson 200 (JPackages Mem.seven)])
  /\ (forall r' l',
         ({[ 1%positive := Mem.seven ]} : gmap Ref (list Package)) !! r'
         = Some l' ->
         heap (run (GETPackagesFeatured (Mem.listing_request "1"))
                   {[ 1%positive := Mem.seven ]} (Mem.world_of ∅ true)) !! r'
         = Some l').
Proof.
  apply (GETPackagesFeatured_sends_the_pruned_copy (C := Mem.collaborators)
           (Mem.listing_request "1") {[ 1%positive := Mem.seven ]}
           (Mem.world_of ∅ true) 1%positive (Mem.world_of ∅ true) Mem.seven);
    [reflexivity | apply lookup_singleton_eq].
Defined.

(** ** What the handlers write to the download counter *)

Ltac hunfold_login :=
  cbv beta iota zeta delta
    [hrun hbind hret hemit hcall handle_error verify_auth get_package
     local_user_logged_in run_world run_trace fst snd app].

Section Counters.
Context {W : Type} {P : PublishCollaborators W}.
Implicit Types (req : Request) (hp : gmap Ref (list Package)) (w : W).

Lemma POSTPackages_writes_nothing req w :
  handler_written_packages (run_trace (hrun (POSTPackages req) w)) = [].
Proof.
  unfold POSTPackages. hunfold_login.
  destruct (users_VerifyAuth _ w) as [[u|? ?] w0]; [|reflexivity].
  destruct (String.eqb _ _); [reflexivity|].
  destruct (data_GetPackagePointerByName _ w0) as [[?|short ?] w1];
    [reflexivity|].
  destruct (negb _); [reflexivity|].
  destruct (git_Ownership _ _ w1) as [[?|? ?] w2]; [|reflexivity].
  destruct (git_CreatePackage _ w2) as [[built|? ?] w3]; [|reflexivity].
  destruct (data_NewPackage _ w3) as [[?|? ?] w4]; [|reflexivity].
  destruct (data_GetPackageByName _ w4) as [[?|? ?] w5]; reflexivity.
Qed.

Lemma POSTPackages_creates_what_git_built req w p :
  p ∈ handler_created_packages (run_trace (hrun (POSTPackages req) w)) ->
  exists (w0 w1 : W), git_CreatePackage (query_repo req) w0 = (Ok p, w1).
Proof.
  unfold POSTPackages. hunfold_login.
  destruct (users_VerifyAuth _ w) as [[u|? ?] w0]; [|by intros ?%elem_of_nil].
  destruct (String.eqb _ _); [by intros ?%elem_of_nil|].
  destruct (data_GetPackagePointerByName _ w0) as [[?|short ?] w1];
    [by intros ?%elem_of_nil|].
  destruct (negb _); [by intros ?%elem_of_nil|].
  destruct (git_Ownership _ _ w1) as [[?|? ?] w2]; [|by intros ?%elem_of_nil].
  destruct (git_CreatePackage _ w2) as [[built|? ?] w3] eqn:Hgit;
    [|by intros ?%elem_of_nil].
  destruct (data_NewPackage _ w3) as [[?|? ?] w4].
  - destruct (data_GetPackageByName _ w4) as [[?|? ?] w5];
      cbn; intros ->%list_elem_of_singleton; exists w2, w3; exact Hgit.
  - cbn; intros ->%list_elem_of_singleton; exists w2, w3; exact Hgit.
Qed.

Lemma DELETEPackagesName_writes_nothing req w :
  handler_written_packages (run_trace (hrun (DELETEPackagesName req) w)) = [].
Proof.
  unfold DELETEPackagesName. hunfold_login.
  destruct (users_VerifyAuth _ w) as [[u|? ?] w0]; [|reflexivity].
  destruct (git_Ownership _ _ w0) as [[?|? ?] w1]; [|reflexivity].
  destruct (data_RemovePackageByName _ w1) as [[?|? ?] w2]; reflexivity.
Qed.

Lemma DELETEPackagesStar_writes_nothing req w :
  handler_written_packages (run_trace (hrun (DELETEPackagesStar req) w)) = [].
Proof.
  unfold DELETEPackagesStar, DELETEPackagesStar_onLogin. hunfold_login.
  destruct (users_VerifyAuth _ w) as [[u|? ?] w0]; [|reflexivity].
  hunfold_login.
  destruct (data_UnStarPackageByName _ _ w0) as [[?|? ?] w1]; [|reflexivity].
  destruct (users_RemoveUserStar _ _ w1) as [[?|? ?] w2]; [reflexivity|].
  destruct (data_StarPackageByName _ _ w2) as [[?|? ?] w3]; reflexivity.
Qed.

Lemma GETPackagesStargazers_writes_nothing req w :
  handler_written_packages (run_trace (hrun (GETPackagesStargazers req) w)) = [].
Proof.
  unfold GETPackagesStargazers. hunfold_login.
  destruct (data_GetPackageByName _ w) as [[?|? ?] w0]; reflexivity.
Qed.

Lemma POSTPackagesVersion_writes_nothing req w :
  handler_written_packages (run_trace (hrun (POSTPackagesVersion req) w)) = [].
Proof.
  unfold POSTPackagesVersion, POSTPackagesVersion_onLogin. hunfold_login.
  destruct (users_VerifyAuth _ w) as [[u|? ?] w0]; [|reflexivity].
  hunfold_login.
  destruct (git_Ownership _ _ w0) as [[?|? ?] w1]; reflexivity.
Qed.

Lemma GETPackagesVersion_writes_nothing req w :
  handler_written_packages (run_trace (hrun (GETPackagesVersion req) w)) = [].
Proof.
  unfold GETPackagesVersion. hunfold_login.
  destruct (version_passes _); [|reflexivity]. hunfold_login.
  destruct (data_GetPackageByName _ w) as [[pack|? ?] w0]; [|reflexivity].
  destruct (versions pack !! _); reflexivity.
Qed.

Lemma DELETEPackageVersion_writes_what_it_read req w c :
  let pname := decodeURIComponent (W := W) (req_params_packageName req) in
  c ∈ handler_written_packages (run_trace (hrun (DELETEPackageVersion req) w)) ->
  exists (w0 : W) content (w1 : W),
    data_GetPackageByName pname w0 = (Ok content, w1)
    /\ c = delete_key content (req_params_versionName req).
Proof.
  intros pname. subst pname. unfold DELETEPackageVersion. hunfold_login.
  destruct (users_VerifyAuth _ w) as [[u|? ?] w0]; [|by intros ?%elem_of_nil].
  destruct (git_Ownership _ _ w0) as [[?|? ?] w1]; [|by intros ?%elem_of_nil].
  destruct (data_GetPackageByName _ w1) as [[pack|? ?] w2] eqn:Hget;
    [|by intros ?%elem_of_nil].
  destruct (negb (own_key_truthy _ _)); hunfold_login;
    match goal with
    | |- context [data_SetPackageByName ?n ?c w2] =>
      destruct (data_SetPackageByName n c w2) as [r w3]
    end; destruct (negb (unawaited_ok r));
    cbn; intros ->%list_elem_of_singleton;
    exists w1, pack, w2; (split; [exact Hget|reflexivity]).
Qed.

Lemma GETPackagesVersionTarball_writes_one_more req hp w c :
  let pname := decodeURIComponent (W := W) (req_params_packageName req) in
  c ∈ written_packages (trace (run (GETPackagesVersionTarball req) hp w)) ->
  exists (w0 : W) content (w1 : W),
    data_GetPackageByName pname w0 = (Ok content, w1)
    /\ downloads c = downloads content + 1.
Proof.
  intros pname. subst pname. unfold GETPackagesVersionTarball.
  destruct (truthy _); cbn [negb]; unfold_monad; [|by intros ?%elem_of_nil].
  destruct (data_GetPackageByName _ w) as [[content|? ?] w1] eqn:Hget;
    [|by intros ?%elem_of_nil].
  destruct (query_engine _) as [|v]; [by intros ?%elem_of_nil|].
  destruct (versions content !! v) as [ver|] eqn:Hver;
    [|by intros ?%elem_of_nil].
  cbn [versions]. rewrite Hver.
  destruct (data_SetPackageByName _ _ w1) as [[?|? ?] ?];
    cbn; intros ->%list_elem_of_singleton;
    exists w, content, w1; cbn [downloads]; (split; [exact Hget|lia]).
Qed.

Lemma POSTPackagesEventUninstall_writes_one_less req hp w c :
  let pname := decodeURIComponent (W := W) (req_params_packageName req) in
  c ∈ written_packages (trace (run (POSTPackagesEventUninstall req) hp w)) ->
  exists (w0 : W) content (w1 : W),
    data_GetPackageByName pname w0 = (Ok content, w1)
    /\ downloads c = downloads content - 1.
Proof.
  intros pname. subst pname. unfold POSTPackagesEventUninstall,
    POSTPackagesEventUninstall_onLogin. unfold_monad.
  destruct (users_VerifyAuth _ w) as [[u|? ?] w0];
    cbn [ok]; unfold_monad; [|by intros ?%elem_of_nil].
  destruct (data_GetPackageByName _ w0) as [[content|? ?] w1] eqn:Hget;
    [|by intros ?%elem_of_nil].
  destruct (data_SetPackageByName _ _ w1) as [[?|? ?] ?];
    cbn; intros ->%list_elem_of_singleton;
    exists w0, content, w1; cbn [downloads]; (split; [exact Hget|lia]).
Qed.

End Counters.

